(** * Agricultural Analytics Dashboard: the recommendation engine of [app.py]

    A shallow embedding of the decision logic of [src/app.py]: the
    [CROP_CONDITIONS] table, the farmer path (feature row, overall
    assessment, the five advisory sections) and the market path (position
    banner and the three risk alerts).

    Conventions of the embedding.
    - Numbers.  Every number the page compares is a finite Python [float]
      or [int]: slider values are bounded, the table holds literals.  A
      finite binary64 value is a rational and Python's [<] and [>] on finite
      numbers are the order of the rationals, so numbers are [Q] and the
      comparisons are [Qcompare].  No theorem below depends on the exact
      value of a literal beyond its order with respect to the others.
    - Strings.  The crop identifier is a Python [str]; [==] is [String.eqb]
      and [in [...]] is a scan of the list.
    - Dictionaries.  [CROP_CONDITIONS] is a dict literal whose key order is
      observable ([.keys()] drives the selectbox and the one-hot loop): an
      association list in source order.  [input_data] is only ever read by
      key: a [gmap].
    - Errors.  A missing key raises [KeyError]; fallible steps live in the
      [result] monad.
    - Text.  An f-string block is a constructor that carries exactly the
      interpolated holes of the template; the constant prose around them is
      not reproduced.  A hole whose text is a bullet list joined by newlines
      carries the list of its items. *)

From Stdlib Require Import QArith ZArith String Lia Bool.
From Stdlib Require Import Lqa.
From stdpp Require Import gmap strings list fin_maps.

Set Default Proof Using "Type".

(** ** Python values and control *)

Module Py.

(** Exceptions the modelled code can raise: a failed subscript. *)
Inductive exn : Type :=
| KeyError (key : string).

Inductive result (A : Type) : Type :=
| Ok (a : A)
| Raise (e : exn).
Arguments Ok {A} a.
Arguments Raise {A} e.

Definition bind {A B} (c : result A) (k : A -> result B) : result B :=
  match c with
  | Ok a => k a
  | Raise e => Raise e
  end.

(** [a < b] on finite numbers. *)
Definition lt (a b : Q) : bool :=
  match Qcompare a b with
  | Lt => true
  | _ => false
  end.

(** [a > b] on finite numbers. *)
Definition gt (a b : Q) : bool := lt b a.

(** [s in [x1, ..., xn]] for strings. *)
Definition str_in (s : string) (l : list string) : bool :=
  existsb (String.eqb s) l.

(** An insertion-ordered dict with string keys, as its list of items. *)
Definition dict (V : Type) : Type := list (string * V).

Definition keys {V} (d : dict V) : list string := map fst d.

(** [d[k]] as an option; [subscript] turns the miss into [KeyError]. *)
Fixpoint get {V} (d : dict V) (k : string) : option V :=
  match d with
  | [] => None
  | (k', v) :: d' => if String.eqb k k' then Some v else get d' k
  end.

Definition subscript {V} (d : dict V) (k : string) : result V :=
  match get d k with
  | Some v => Ok v
  | None => Raise (KeyError k)
  end.

(** [sum(1 for x in xs if p x)]. *)
Definition count_if {A} (p : A -> bool) (xs : list A) : nat :=
  list_sum (map (fun _ => 1%nat) (List.filter p xs)).

End Py.

Import Py.

Notation "x <- c ;; k" := (Py.bind c (fun x => k))
  (at level 100, c at next level, right associativity).

(** ** The condition table (lines 10-47) *)

Record CropProfile : Type := {
  temp_range : Q * Q;
  soil_ph : Q * Q;
  rainfall : Q * Q;
  soil_moisture : Q * Q;
  fertilizer_npk : string;
  growing_period : string;
  water_requirement : string
}.

Definition CROP_CONDITIONS : dict CropProfile :=
  [ ("Rice",
     {| temp_range := (20, 35)%Q;
        soil_ph := (5.5, 6.5)%Q;
        rainfall := (1000, 2000)%Q;
        soil_moisture := (0.6, 0.8)%Q;
        fertilizer_npk := "N: 120kg/ha, P: 60kg/ha, K: 60kg/ha";
        growing_period := "90-120 days";
        water_requirement := "1200-1600mm" |});
    ("Wheat",
     {| temp_range := (15, 25)%Q;
        soil_ph := (6.0, 7.0)%Q;
        rainfall := (600, 1100)%Q;
        soil_moisture := (0.5, 0.7)%Q;
        fertilizer_npk := "N: 100kg/ha, P: 50kg/ha, K: 50kg/ha";
        growing_period := "120-150 days";
        water_requirement := "450-650mm" |});
    ("Corn",
     {| temp_range := (18, 32)%Q;
        soil_ph := (5.8, 7.0)%Q;
        rainfall := (500, 800)%Q;
        soil_moisture := (0.5, 0.75)%Q;
        fertilizer_npk := "N: 150kg/ha, P: 75kg/ha, K: 75kg/ha";
        growing_period := "90-120 days";
        water_requirement := "500-800mm" |});
    ("Soybean",
     {| temp_range := (20, 30)%Q;
        soil_ph := (6.0, 6.8)%Q;
        rainfall := (450, 700)%Q;
        soil_moisture := (0.5, 0.7)%Q;
        fertilizer_npk := "N: 20kg/ha, P: 60kg/ha, K: 40kg/ha";
        growing_period := "100-120 days";
        water_requirement := "450-700mm" |}) ].

(** [crop_info = CROP_CONDITIONS[selected_crop]] (line 117). *)
Definition lookup (selected_crop : string) : result CropProfile :=
  subscript CROP_CONDITIONS selected_crop.

(** ** One form submission of the farmer path (lines 137-196) *)

Record PredictionInput : Type := {
  Temperature_C : Q;
  Rainfall_mm : Q;
  Soil_pH : Q;
  Soil_Moisture : Q;
  Fertilizer_Usage_kg : Q;
  Pesticide_Usage_kg : Q;
  Sustainability_Score : Q
}.

(** ** The advisory sections (lines 296-614)

    One constructor per block of text the page can emit, with the values
    its template interpolates. *)

Inductive Advisory : Type :=
| LowTemperature (temp : Q) (crop : string)
    (soil_temperature_target : Q) (soil_moisture_target : Q)
| HighTemperature (temp : Q) (crop : string) (planting_shift : string)
| SoilAcidity (ph : Q) (crop : string) (lime_kg_ha : Z)
| AlkalineSoil (ph : Q) (crop : string) (sulfur_kg_ha : Z)
| InsufficientRainfall (rain : Q) (crop : string)
    (emitters : string) (pressure : string) (mulch : string)
    (critical_stages : list string)
| GrowthStage (crop : string)
    (land_preparation early_vegetative mid_season reproductive : list string)
    (maturity_period : string) (harvest : list string)
| NutrientManagement (crop : string)
    (base_fertilizer growth_stage_nutrients : list string)
    (nitrogen phosphorus potassium : string).

Inductive kind : Type :=
| low_temperature
| high_temperature
| soil_acidity
| alkaline_soil
| insufficient_rainfall
| growth_stage
| nutrient_management.

#[global] Instance kind_eq_dec : EqDecision kind.
Proof. solve_decision. Defined.

Definition kind_of (a : Advisory) : kind :=
  match a with
  | LowTemperature _ _ _ _ => low_temperature
  | HighTemperature _ _ _ => high_temperature
  | SoilAcidity _ _ _ => soil_acidity
  | AlkalineSoil _ _ _ => alkaline_soil
  | InsufficientRainfall _ _ _ _ _ _ => insufficient_rainfall
  | GrowthStage _ _ _ _ _ _ _ => growth_stage
  | NutrientManagement _ _ _ _ _ _ => nutrient_management
  end.

(** The sections of one kind, in rendering order, and whether one fired. *)
Definition of_kind (k : kind) (bundle : list Advisory) : list Advisory :=
  List.filter (fun a => bool_decide (kind_of a = k)) bundle.

Definition fires (k : kind) (bundle : list Advisory) : Prop :=
  of_kind k bundle <> [].

(** The four-way conditional on the crop name that the templates repeat:
    [rice if selected_crop == 'Rice' else wheat if selected_crop == 'Wheat'
     else corn if selected_crop == 'Corn' else other]. *)
Definition by_crop {A} (selected_crop : string) (rice wheat corn other : A) : A :=
  if String.eqb selected_crop "Rice" then rice
  else if String.eqb selected_crop "Wheat" then wheat
  else if String.eqb selected_crop "Corn" then corn
  else other.

(** Temperature (lines 297-399). *)
Definition temperature_section (selected_crop : string) (crop_info : CropProfile)
    (temp : Q) : list Advisory :=
  if lt temp (fst (temp_range crop_info)) then
    [ LowTemperature temp selected_crop
        (fst (temp_range crop_info)) (fst (soil_moisture crop_info)) ]
  else if gt temp (snd (temp_range crop_info)) then
    [ HighTemperature temp selected_crop
        (by_crop selected_crop "3-4 weeks" "4-5 weeks" "2-3 weeks" "3-4 weeks") ]
  else [].

(** Soil pH (lines 402-491). *)
Definition lime_dose (selected_crop : string) : Z :=
  if str_in selected_crop ["Rice"; "Corn"] then 2000 else 1500.

Definition sulfur_dose (selected_crop : string) : Z :=
  if str_in selected_crop ["Rice"; "Soybean"] then 300 else 400.

Definition soil_ph_section (selected_crop : string) (crop_info : CropProfile)
    (ph : Q) : list Advisory :=
  if lt ph (fst (soil_ph crop_info)) then
    [ SoilAcidity ph selected_crop (lime_dose selected_crop) ]
  else if gt ph (snd (soil_ph crop_info)) then
    [ AlkalineSoil ph selected_crop (sulfur_dose selected_crop) ]
  else [].

(** Rainfall (lines 494-528): one test, no [elif]. *)
Definition emitter_spacing (selected_crop : string) : string :=
  if str_in selected_crop ["Rice"; "Wheat"] then "emitters every 30cm"
  else "emitters every 45cm".

Definition rainfall_section (selected_crop : string) (crop_info : CropProfile)
    (rain : Q) : list Advisory :=
  if lt rain (fst (rainfall crop_info)) then
    [ InsufficientRainfall rain selected_crop
        (emitter_spacing selected_crop)
        (if String.eqb selected_crop "Rice" then "1.5-2.0 bar" else "1.0-1.5 bar")
        (by_crop selected_crop "rice straw" "wheat straw" "corn stalks" "organic mulch")
        (by_crop selected_crop
           [ "Tillering (20-25 DAS)"; "Panicle initiation (45-50 DAS)";
             "Flowering (70-75 DAS)" ]
           [ "Crown root initiation (20-25 DAS)"; "Tillering (35-45 DAS)";
             "Grain filling (60-70 DAS)" ]
           [ "V6-V8 stage (30-40 DAS)"; "Tasseling (55-65 DAS)";
             "Grain filling (75-85 DAS)" ]
           [ "V3-V4 stage (25-30 DAS)"; "Flowering (45-55 DAS)";
             "Pod filling (70-80 DAS)" ]) ]
  else [].

(** Growth-stage management (lines 531-573): emitted on every submission. *)
Definition growth_stage_section (selected_crop : string) (crop_info : CropProfile)
    : Advisory :=
  GrowthStage selected_crop
    (by_crop selected_crop
       [ "Puddling to 15cm depth"; "Level field with laser leveler";
         "Pre-soak seeds for 24 hours"; "Seed rate: 40-50 kg/ha" ]
       [ "Deep plowing to 20cm"; "Fine seedbed preparation";
         "Seed treatment with fungicide"; "Seed rate: 100-120 kg/ha" ]
       [ "Primary tillage 25-30cm deep"; "Create raised beds 75cm apart";
         "Seed treatment with metalaxyl"; "Seed rate: 20-25 kg/ha" ]
       [ "Minimum tillage system"; "Inoculate seeds with Rhizobium";
         "Plant 3-4cm deep"; "Seed rate: 65-75 kg/ha" ])
    (by_crop selected_crop
       [ "Maintain 2-5cm water level"; "First N split (50 kg/ha)";
         "Monitor for leaf folder"; "Start weed management" ]
       [ "First irrigation at CRI stage"; "Top dress N (40 kg/ha)";
         "Watch for aphids"; "Control broad-leaf weeds" ]
       [ "V4-V8 stage management"; "Side-dress N (60 kg/ha)";
         "Scout for fall armyworm"; "Inter-row cultivation" ]
       [ "Maintain optimal moisture"; "Apply P and K if needed";
         "Monitor for pod borers"; "Control early weeds" ])
    (by_crop selected_crop
       [ "Panicle initiation stage"; "Second N split (30 kg/ha)";
         "Monitor for blast disease"; "Maintain water depth" ]
       [ "Boot to heading stage"; "Final N application";
         "Watch for rust/smut"; "Flag leaf protection" ]
       [ "Tasseling and silking"; "Foliar spray if needed";
         "Irrigation critical"; "Disease monitoring" ]
       [ "Flowering stage"; "Moisture critical";
         "Disease scouting"; "Beneficial insect conservation" ])
    (by_crop selected_crop
       [ "Grain filling period"; "Maintain water level";
         "Monitor for grain discoloration"; "Bird control measures" ]
       [ "Grain development"; "Moisture stress sensitive";
         "Watch for head scab"; "Plan harvest timing" ]
       [ "Kernel filling stage"; "Maintain soil moisture";
         "Stalk rot monitoring"; "Plan harvesting" ]
       [ "Pod filling stage"; "Maintain soil moisture";
         "Pod disease monitoring"; "Plan harvest timing" ])
    (growing_period crop_info)
    (by_crop selected_crop
       [ "Drain field 10 days before harvest"; "Check grain moisture (20-22%)";
         "Harvest at 80% mature grains"; "Proper drying to 14%" ]
       [ "Monitor grain moisture"; "Harvest at 12-14% moisture";
         "Proper storage preparation"; "Quality assessment" ]
       [ "Monitor black layer formation"; "Harvest at 20-25% moisture";
         "Proper drying essential"; "Storage preparation" ]
       [ "Monitor pod dryness"; "Harvest at 13-15% moisture";
         "Careful threshing"; "Proper storage conditions" ]).

(** Nutrient management (lines 576-614): emitted on every submission. *)
Definition nutrient_section (selected_crop : string) : Advisory :=
  NutrientManagement selected_crop
    (by_crop selected_crop
       [ "N: 40kg/ha at planting"; "P: All 60kg/ha as basal";
         "K: 40kg/ha at planting"; "Zn: 25kg/ha ZnSO4" ]
       [ "N: 30kg/ha at sowing"; "P: All 50kg/ha as basal";
         "K: All 50kg/ha as basal"; "S: 20kg/ha" ]
       [ "N: 60kg/ha at planting"; "P: All 75kg/ha as basal";
         "K: 50kg/ha split"; "Zn: 10kg/ha" ]
       [ "N: Starter dose only"; "P: All 60kg/ha as basal";
         "K: All 40kg/ha as basal"; "Mo: 2kg/ha" ])
    (by_crop selected_crop
       [ "Tillering: 40kg N/ha"; "Panicle: 40kg N/ha + 20kg K/ha";
         "Heading: Foliar K if needed" ]
       [ "Tillering: 35kg N/ha"; "Stem extension: 35kg N/ha";
         "Pre-heading: Foliar micro-nutrients" ]
       [ "V6: 45kg N/ha"; "V12: 45kg N/ha + 25kg K/ha";
         "Tasseling: Foliar Zn if needed" ]
       [ "V4: 10kg N/ha if needed"; "R1: 20kg K/ha";
         "R3: Foliar nutrients if needed" ])
    (by_crop selected_crop
       "Yellowing of older leaves - Topdress 20kg N/ha"
       "Pale green leaves - Apply 30kg N/ha"
       "V-shaped yellowing - Apply 40kg N/ha"
       "Light green plants - Apply 15kg N/ha")
    (by_crop selected_crop
       "Purple leaf edges - Foliar DAP 2%"
       "Dark green-purple leaves - Foliar P 2%"
       "Purple stem/leaves - Foliar P 2.5%"
       "Dark green-stunted - Foliar P 2%")
    (by_crop selected_crop
       "Leaf tip burning - Apply 20kg K/ha"
       "Yellow leaf margins - Apply 25kg K/ha"
       "Leaf edge necrosis - Apply 30kg K/ha"
       "Yellow leaf edges - Apply 20kg K/ha").

(** The five sections in rendering order (lines 296-614). *)
Definition recommendation_bundle (selected_crop : string) (crop_info : CropProfile)
    (i : PredictionInput) : list Advisory :=
  temperature_section selected_crop crop_info (Temperature_C i)
  ++ soil_ph_section selected_crop crop_info (Soil_pH i)
  ++ rainfall_section selected_crop crop_info (Rainfall_mm i)
  ++ [ growth_stage_section selected_crop crop_info ]
  ++ [ nutrient_section selected_crop ].

(** The recommendation selector on its own: the table lookup of line 117
    followed by the sections of lines 296-614. *)
Definition select_recommendations (selected_crop : string) (i : PredictionInput)
    : result (list Advisory) :=
  crop_info <- lookup selected_crop ;;
  Ok (recommendation_bundle selected_crop crop_info i).

(** ** The feature row (lines 188-204) *)

Definition crop_column (crop : string) : string := "Crop_Type_" +:+ crop.

(** [input_data]: the seven numeric fields, then one indicator per key of
    the condition table. *)
Definition input_data (selected_crop : string) (i : PredictionInput)
    : gmap string Q :=
  foldl
    (fun d crop =>
       <[ crop_column crop := if String.eqb crop selected_crop then 1%Q else 0%Q ]> d)
    (<[ "Sustainability_Score" := Sustainability_Score i ]>
     (<[ "Pesticide_Usage_kg" := Pesticide_Usage_kg i ]>
      (<[ "Fertilizer_Usage_kg" := Fertilizer_Usage_kg i ]>
       (<[ "Soil_Moisture" := Soil_Moisture i ]>
        (<[ "Soil_pH" := Soil_pH i ]>
         (<[ "Rainfall_mm" := Rainfall_mm i ]>
          (<[ "Temperature_C" := Temperature_C i ]> ∅)))))))
    (keys CROP_CONDITIONS).

(** [input_df[X.columns]]: the row in the order of the training schema.
    When the dict lacks a schema column the selection raises [KeyError].
    pandas raises one [KeyError] whose message lists every missing column;
    the key carried here is the first missing column, and stands for that
    message: the statements below use the fact of the failure and the row
    of a success, never the key. *)
Fixpoint select_columns (columns : list string) (d : gmap string Q)
    : result (list (string * Q)) :=
  match columns with
  | [] => Ok []
  | c :: columns' =>
      match d !! c with
      | Some v => rest <- select_columns columns' d ;; Ok ((c, v) :: rest)
      | None => Raise (KeyError c)
      end
  end.

(** ** The farmer page after a submission (lines 116-117, 186-614)

    The training schema [X_columns], the fitted model [predict] and the mean
    [y_mean] of the training target come from the dataset, which is not
    part of the repository: they are parameters. *)

Record FarmerPage : Type := {
  predicted_yield : Q;
  assessment : string;
  recommendations : list Advisory
}.

(** Lines 288-292. *)
Definition farmer_assessment (prediction y_mean : Q) : string :=
  if gt prediction y_mean then "excellent growing conditions"
  else "some areas that need attention".

Definition farmer_submit (X_columns : list string)
    (predict : list (string * Q) -> Q) (y_mean : Q)
    (selected_crop : string) (i : PredictionInput) : result FarmerPage :=
  crop_info <- lookup selected_crop ;;
  input_df <- select_columns X_columns (input_data selected_crop i) ;;
  let prediction := predict input_df in
  Ok {| predicted_yield := prediction;
        assessment := farmer_assessment prediction y_mean;
        recommendations := recommendation_bundle selected_crop crop_info i |}.

(** ** The market page after a submission (lines 728-838)

    [price_data], [market_data] and [economic_data] are the dicts the form
    fills with one slider value per column of the group; [X_mean col] is
    [X[col].mean()] and [y_mean] is [y.mean()], both from the dataset. *)

Inductive MarketBanner : Type :=
| ShortTermStrategy (market_score : Q)   (* [st.warning], lines 752-770 *)
| GrowthStrategy (market_score : Q).     (* [st.success], lines 772-790 *)

Inductive variant : Type :=
| below_average
| above_average.

Definition variant_of (b : MarketBanner) : variant :=
  match b with
  | ShortTermStrategy _ => below_average
  | GrowthStrategy _ => above_average
  end.

Definition score_of (b : MarketBanner) : Q :=
  match b with
  | ShortTermStrategy s => s
  | GrowthStrategy s => s
  end.

(** Lines 742 and 751-790.  The banner carries [market_score] as line 742
    computes it, for a non-zero mean and in exact arithmetic: at a zero mean
    NumPy yields [inf] or [nan], which [Q] does not hold, and the page prints
    the score with one decimal ([:.1f]).  The statements below read the
    score at a non-zero mean only, and none is about the printed digits. *)
Definition market_position (prediction y_mean : Q) : MarketBanner :=
  let market_score := (prediction / y_mean * 100)%Q in
  if lt prediction y_mean then ShortTermStrategy market_score
  else GrowthStrategy market_score.

Inductive RiskAlert : Type :=
| HighPriceRisk
| MarketRiskAlert
| EconomicRiskFactors.

#[global] Instance RiskAlert_eq_dec : EqDecision RiskAlert.
Proof. solve_decision. Defined.

(** [sum(1 for col, val in data.items() if val < X[col].mean())]. *)
Definition risk (X_mean : string -> Q) (data : dict Q) : nat :=
  count_if (fun '(col, val) => lt val (X_mean col)) data.

(** [risk > len(data) / 2], with Python's true division. *)
Definition risk_detected (X_mean : string -> Q) (data : dict Q) : bool :=
  gt (inject_Z (Z.of_nat (risk X_mean data)))
     (inject_Z (Z.of_nat (length data)) / 2)%Q.

(** Lines 795-838: three independent tests, in this order. *)
Definition risk_assessment (X_mean : string -> Q)
    (price_data market_data economic_data : dict Q) : list RiskAlert :=
  (if risk_detected X_mean price_data then [HighPriceRisk] else [])
  ++ (if risk_detected X_mean market_data then [MarketRiskAlert] else [])
  ++ (if risk_detected X_mean economic_data then [EconomicRiskFactors] else []).

Record MarketPage : Type := {
  predicted_outcome : Q;
  position : MarketBanner;
  alerts : list RiskAlert
}.

Definition market_analysis (X_mean : string -> Q) (y_mean : Q) (prediction : Q)
    (price_data market_data economic_data : dict Q) : MarketPage :=
  {| predicted_outcome := prediction;
     position := market_position prediction y_mean;
     alerts := risk_assessment X_mean price_data market_data economic_data |}.

(** ** More of Python: dict updates, [str.lower], substring test, [max] *)

Module PyDict.

(** [d[k] = v]: overwrite in place, or append a new key. *)
Fixpoint set {V} (d : dict V) (k : string) (v : V) : dict V :=
  match d with
  | [] => [(k, v)]
  | (k', v') :: d' =>
      if String.eqb k k' then (k', v) :: d' else (k', v') :: set d' k v
  end.

(** [{**d1, **d2}]: the items of [d2] written into [d1] in order. *)
Definition merge {V} (d1 d2 : dict V) : dict V :=
  fold_left (fun d item => set d (fst item) (snd item)) d2 d1.

(** [k in d]. *)
Definition has_key {V} (d : dict V) (k : string) : bool :=
  match get d k with
  | Some _ => true
  | None => false
  end.

(** [enumerate(xs)]. *)
Definition enumerate {A} (xs : list A) : list (nat * A) :=
  combine (seq 0 (length xs)) xs.

(** [max(a, b)] on finite numbers: [b] only when it is strictly greater. *)
Definition max (a b : Q) : Q := if gt b a then b else a.

End PyDict.

Module PyStr.

(** [str.lower] on ASCII text (column names are taken to be ASCII). *)
Definition lower_ascii (c : Ascii.ascii) : Ascii.ascii :=
  let n := Ascii.nat_of_ascii c in
  if Nat.leb 65 n && Nat.leb n 90 then Ascii.ascii_of_nat (n + 32) else c.

Fixpoint lower (s : string) : string :=
  match s with
  | EmptyString => EmptyString
  | String c s' => String (lower_ascii c) (lower s')
  end.

(** [term in s]: [term] occurs in [s] as a contiguous substring. *)
Fixpoint contains (term s : string) : bool :=
  String.prefix term s
  || match s with
     | EmptyString => false
     | String _ s' => contains term s'
     end.

End PyStr.

(** ** Feature columns of the farmer model (lines 96-99) *)

Definition feature_cols (columns : list string) : list string :=
  let target_col := "Crop_Yield_ton" in
  let id_cols := if str_in "Farm_ID" columns then ["Farm_ID"] else [] in
  List.filter (fun col => negb (str_in col ([target_col] ++ id_cols))) columns.

(** ** The farmer form (lines 137-182)

    A slider has bounds, an initial value and possibly a step. *)

Record Slider : Type := {
  min_value : Q;
  max_value : Q;
  value : Q;
  step : option Q
}.

Record FarmerForm : Type := {
  temp_slider : Slider;
  rainfall_slider : Slider;
  soil_ph_slider : Slider;
  soil_moisture_slider : Slider;
  fertilizer_slider : Slider;
  pesticide_slider : Slider;
  sustainability_slider : Slider
}.

Definition farmer_form (crop_info : CropProfile) : FarmerForm :=
  {| temp_slider :=
       {| min_value := 0.0; max_value := 50.0; value := 25.0; step := None |};
     rainfall_slider :=
       {| min_value := 0.0; max_value := 3000.0;
          value := fst (rainfall crop_info); step := None |};
     soil_ph_slider :=
       {| min_value := 0.0; max_value := 14.0;
          value := fst (soil_ph crop_info); step := None |};
     soil_moisture_slider :=
       {| min_value := 0.0; max_value := 1.0;
          value := fst (soil_moisture crop_info); step := Some 0.01%Q |};
     fertilizer_slider :=
       {| min_value := 0.0; max_value := 500.0; value := 100.0; step := None |};
     pesticide_slider :=
       {| min_value := 0.0; max_value := 50.0; value := 5.0; step := None |};
     sustainability_slider :=
       {| min_value := 0.0; max_value := 10.0; value := 7.0; step := None |} |}.

Definition sliders (f : FarmerForm) : list Slider :=
  [ temp_slider f; rainfall_slider f; soil_ph_slider f; soil_moisture_slider f;
    fertilizer_slider f; pesticide_slider f; sustainability_slider f ].

(** The submission of a form nobody touched: every slider at its initial
    value. *)
Definition untouched (f : FarmerForm) : PredictionInput :=
  {| Temperature_C := value (temp_slider f);
     Rainfall_mm := value (rainfall_slider f);
     Soil_pH := value (soil_ph_slider f);
     Soil_Moisture := value (soil_moisture_slider f);
     Fertilizer_Usage_kg := value (fertilizer_slider f);
     Pesticide_Usage_kg := value (pesticide_slider f);
     Sustainability_Score := value (sustainability_slider f) |}.

(** ** The market form (lines 645-734)

    [X_mean col] and [X_std col] are [X[col].mean()] and [X[col].std()];
    [entered prefix i] is the value the slider with key [prefix_i] holds
    when the form is submitted. *)

(** Lines 653-657, repeated for each of the four groups. *)
Definition market_slider (mean_val std_val : Q) : Slider :=
  let min_val := PyDict.max 0 (mean_val - 3 * std_val)%Q in
  let max_val := (mean_val + 3 * std_val)%Q in
  {| min_value := min_val; max_value := max_val; value := mean_val;
     step := Some ((max_val - min_val) / 100)%Q |}.

(** [any(term in col.lower() for term in terms)]. *)
Definition matches (terms : list string) (col : string) : bool :=
  existsb (fun term => PyStr.contains term (PyStr.lower col)) terms.

Definition price_terms : list string := ["price"; "cost"].
Definition market_terms : list string := ["market"; "demand"; "supply"].
Definition economic_terms : list string := ["economic"; "growth"; "index"].

(** One of the four loops over [enumerate(X.columns)]: the columns that
    pass [member] get the value of their slider. *)
Definition fill (prefix : string) (member : string -> bool)
    (entered : string -> nat -> Q) (X_columns : list string) : dict Q :=
  fold_left
    (fun d cell =>
       if member (snd cell) then PyDict.set d (snd cell) (entered prefix (fst cell))
       else d)
    (PyDict.enumerate X_columns) [].

Record MarketForm : Type := {
  price_data : dict Q;
  market_data : dict Q;
  economic_data : dict Q;
  other_data : dict Q
}.

Definition market_form (entered : string -> nat -> Q) (X_columns : list string)
    : MarketForm :=
  let price := fill "price" (matches price_terms) entered X_columns in
  let market := fill "market" (matches market_terms) entered X_columns in
  let economic := fill "economic" (matches economic_terms) entered X_columns in
  let grouped := PyDict.merge (PyDict.merge price market) economic in
  {| price_data := price;
     market_data := market;
     economic_data := economic;
     other_data :=
       fill "other" (fun col => negb (PyDict.has_key grouped col)) entered X_columns |}.

(** [{**price_data, **market_data, **economic_data, **other_data}] (line 730). *)
Definition market_input_data (f : MarketForm) : dict Q :=
  PyDict.merge
    (PyDict.merge (PyDict.merge (price_data f) (market_data f)) (economic_data f))
    (other_data f).

(** [input_df[X.columns]] on the merged dict (lines 733-734). *)
Fixpoint align (columns : list string) (d : dict Q) : result (list (string * Q)) :=
  match columns with
  | [] => Ok []
  | c :: columns' =>
      v <- subscript d c ;;
      rest <- align columns' d ;;
      Ok ((c, v) :: rest)
  end.

(** Lines 728-838. *)
Definition market_submit (X_columns : list string) (X_mean : string -> Q)
    (predict : list (string * Q) -> Q) (y_mean : Q)
    (entered : string -> nat -> Q) : result MarketPage :=
  let f := market_form entered X_columns in
  input_df <- align X_columns (market_input_data f) ;;
  Ok (market_analysis X_mean y_mean (predict input_df)
        (price_data f) (market_data f) (economic_data f)).

(** The market form nobody touched: every slider at the mean of its column. *)
Definition at_means (X_mean : string -> Q) (X_columns : list string)
    (prefix : string) (i : nat) : Q :=
  X_mean (nth i X_columns EmptyString).

(** ** Sample submissions, used to exercise the statements below *)

(** 15 degrees, 400 mm of rain, pH 7.5: cool, dry and alkaline for all four
    crops (the scenarios of the specification's examples). *)
Definition cool_alkaline_dry : PredictionInput :=
  {| Temperature_C := 15; Rainfall_mm := 400; Soil_pH := 7.5;
     Soil_Moisture := 0.6; Fertilizer_Usage_kg := 100;
     Pesticide_Usage_kg := 5; Sustainability_Score := 7 |}.

(** The same readings on wet, heavily treated ground. *)
Definition cool_alkaline_soaked : PredictionInput :=
  {| Temperature_C := 15; Rainfall_mm := 400; Soil_pH := 7.5;
     Soil_Moisture := 0.95; Fertilizer_Usage_kg := 480;
     Pesticide_Usage_kg := 40; Sustainability_Score := 2 |}.

(** A training schema the farmer path accepts: the seven numeric columns
    and the four indicator columns [get_dummies] derives from [Crop_Type]. *)
Definition sample_schema : list string :=
  [ "Soil_pH"; "Soil_Moisture"; "Temperature_C"; "Rainfall_mm";
    "Fertilizer_Usage_kg"; "Pesticide_Usage_kg"; "Sustainability_Score";
    "Crop_Type_Corn"; "Crop_Type_Rice"; "Crop_Type_Soybean"; "Crop_Type_Wheat" ].

(** A stand-in for the fitted model: any function of the row will do. *)
Definition sample_model (row : list (string * Q)) : Q :=
  fold_right (fun cell acc => (snd cell + acc)%Q) 0%Q row.

(** A market submission: every training column has mean 10; one of the two
    price values is below it, both market values are, and no economic column
    exists. *)
Definition flat_means (col : string) : Q := 10.

Definition half_price : dict Q :=
  [ ("Price_per_ton", 8%Q); ("Input_Cost", 12%Q) ].

Definition weak_market : dict Q :=
  [ ("Demand_Volume", 9%Q); ("Supply_Volume", 7.5%Q) ].

Definition no_economic : dict Q := [].

(** A market schema with a column shown in two groups, and a submission
    that sets every slider of a group to the same value: 1 in the price
    group, 2 in the market group, 3 in the economic group, 4 elsewhere. *)
Definition sample_market_schema : list string :=
  [ "Market_Price"; "Supply_Index"; "Weather_Score" ].

Definition one_value_per_group (prefix : string) (i : nat) : Q :=
  if String.eqb prefix "price" then 1
  else if String.eqb prefix "market" then 2
  else if String.eqb prefix "economic" then 3
  else 4.

(** ** Properties stated about the table and the sections *)

(** The range invariants of a profile: every range has [min < max], the pH
    range lies in [[0, 14]] and the moisture range in [[0, 1]]. *)
Definition well_ordered (range : Q * Q) : Prop := (fst range < snd range)%Q.

Definition within (lo hi : Q) (range : Q * Q) : Prop :=
  (lo <= fst range)%Q /\ (snd range <= hi)%Q.

Record profile_invariant (p : CropProfile) : Prop := {
  temp_range_ordered : well_ordered (temp_range p);
  soil_ph_ordered : well_ordered (soil_ph p);
  rainfall_ordered : well_ordered (rainfall p);
  soil_moisture_ordered : well_ordered (soil_moisture p);
  soil_ph_on_scale : within 0 14 (soil_ph p);
  soil_moisture_fraction : within 0 1 (soil_moisture p)
}.

(** The boundary rule of a two-sided section: [low] and [high] say whether
    the block below the range and the block above it fired for value [v]. *)
Definition boundary_rule (range : Q * Q) (v : Q) (low high : Prop) : Prop :=
  ((v < fst range)%Q -> low /\ ~ high) /\
  ((snd range < v)%Q -> high /\ ~ low) /\
  ((fst range <= v)%Q /\ (v <= snd range)%Q -> ~ low /\ ~ high) /\
  ~ (low /\ high).

(** The four crop names the page supports. *)
Definition supported (crop : string) : Prop :=
  crop = "Rice" \/ crop = "Wheat" \/ crop = "Corn" \/ crop = "Soybean".

(** The values of a group that are strictly below the mean of their
    training column. *)
Definition below_mean (X_mean : string -> Q) (data : dict Q) : dict Q :=
  List.filter
    (fun cell => if Qlt_le_dec (snd cell) (X_mean (fst cell)) then true else false)
    data.

(** Two runs see the same banner: same variant, same displayed score. *)
Definition same_banner (b1 b2 : MarketBanner) : Prop :=
  variant_of b1 = variant_of b2 /\ (score_of b1 == score_of b2)%Q.

(** The keys of [input_data]: the seven numeric fields and the four
    indicator columns. *)
Definition input_columns : list string :=
  [ "Temperature_C"; "Rainfall_mm"; "Soil_pH"; "Soil_Moisture";
    "Fertilizer_Usage_kg"; "Pesticide_Usage_kg"; "Sustainability_Score";
    "Crop_Type_Rice"; "Crop_Type_Wheat"; "Crop_Type_Corn"; "Crop_Type_Soybean" ].

(** A slider opens inside its own bounds. *)
Definition opens_in_bounds (s : Slider) : Prop :=
  (min_value s <= value s)%Q /\ (value s <= max_value s)%Q.

(** The order in which the page renders the kinds of section. *)
Definition rendering_order : list kind :=
  [ low_temperature; high_temperature; soil_acidity; alkaline_soil;
    insufficient_rainfall; growth_stage; nutrient_management ].

(** The assignments one loop of the market form performs, in order: the
    column and the value of its slider, for the columns that pass [member]. *)
Definition writes (prefix : string) (member : string -> bool)
    (entered : string -> nat -> Q) (X_columns : list string) : dict Q :=
  map (fun cell => (snd cell, entered prefix (fst cell)))
    (List.filter (fun cell => member (snd cell)) (PyDict.enumerate X_columns)).

(** The group whose slider the model reads for a column: the last of the
    four dicts of the merge that holds it. *)
Definition deciding_group (col : string) : string :=
  if matches economic_terms col then "economic"
  else if matches market_terms col then "market"
  else if matches price_terms col then "price"
  else "other".

(** ** Basic facts *)

Section PyFacts.

Lemma lt_iff (a b : Q) : lt a b = true <-> (a < b)%Q.
Proof.
  unfold lt. rewrite Qlt_alt.
  destruct (a ?= b)%Q; split; congruence.
Qed.

Lemma lt_false_iff (a b : Q) : lt a b = false <-> (b <= a)%Q.
Proof.
  rewrite <- not_true_iff_false, lt_iff. split.
  - apply Qnot_lt_le.
  - apply Qle_not_lt.
Qed.

Lemma gt_iff (a b : Q) : gt a b = true <-> (b < a)%Q.
Proof. apply lt_iff. Qed.

Lemma gt_false_iff (a b : Q) : gt a b = false <-> (a <= b)%Q.
Proof. apply lt_false_iff. Qed.

Lemma get_Some_In {V} (d : dict V) (k : string) (v : V) :
  get d k = Some v -> In (k, v) d.
Proof.
  induction d as [|[k' v'] d IH]; simpl; [discriminate|].
  destruct (String.eqb_spec k k') as [-> | _].
  - intros E. injection E as ->. now left.
  - intros H. right. now apply IH.
Qed.

Lemma get_None_iff {V} (d : dict V) (k : string) :
  get d k = None <-> ~ In k (keys d).
Proof.
  induction d as [|[k' v'] d IH]; simpl; [tauto|].
  destruct (String.eqb_spec k k') as [-> | Hne].
  - split; [discriminate | intros H; exfalso; apply H; now left].
  - rewrite IH. split.
    + intros H [E|I]; [now apply Hne | now apply H].
    + intros H I. apply H. now right.
Qed.

Lemma count_if_length {A} (p : A -> bool) (xs : list A) :
  count_if p xs = length (List.filter p xs).
Proof.
  unfold count_if. induction (List.filter p xs) as [|x l IH]; simpl; congruence.
Qed.

Lemma count_if_le {A} (p : A -> bool) (xs : list A) :
  (count_if p xs <= length xs)%nat.
Proof.
  rewrite count_if_length. induction xs as [|x xs IH]; simpl; [lia|].
  destruct (p x); simpl; lia.
Qed.

End PyFacts.

Lemma keys_CROP_CONDITIONS :
  keys CROP_CONDITIONS = ["Rice"; "Wheat"; "Corn"; "Soybean"].
Proof. reflexivity. Qed.

Lemma supported_iff_key (crop : string) :
  supported crop <-> In crop (keys CROP_CONDITIONS).
Proof. rewrite keys_CROP_CONDITIONS. unfold supported. simpl. intuition congruence. Qed.

Lemma lookup_Ok_In (crop : string) (info : CropProfile) :
  lookup crop = Ok info -> In (crop, info) CROP_CONDITIONS.
Proof.
  unfold lookup, subscript. destruct (get CROP_CONDITIONS crop) eqn:E; [|discriminate].
  intros E'. injection E' as ->. now apply get_Some_In.
Qed.

Lemma lookup_supported (crop : string) :
  supported crop -> exists info, lookup crop = Ok info.
Proof.
  intros [-> | [-> | [-> | ->]]]; eexists; reflexivity.
Qed.

Lemma lookup_unsupported (crop : string) :
  ~ supported crop -> lookup crop = Raise (KeyError crop).
Proof.
  rewrite supported_iff_key, <- get_None_iff. unfold lookup, subscript.
  now intros ->.
Qed.

Lemma table_invariant :
  Forall (fun entry => profile_invariant (snd entry)) CROP_CONDITIONS.
Proof.
  repeat constructor; simpl; unfold well_ordered, within, Qlt, Qle; simpl; lia.
Qed.

Lemma lookup_invariant (crop : string) (info : CropProfile) :
  lookup crop = Ok info -> profile_invariant info.
Proof.
  intros H. apply lookup_Ok_In in H.
  pose proof table_invariant as T. rewrite List.Forall_forall in T.
  exact (T _ H).
Qed.

(** ** Which sections fire *)

(** Case analysis on every comparison the sections make. *)
Ltac case_tests :=
  unfold gt in *;
  repeat match goal with
         | |- context [lt ?a ?b] => destruct (lt a b) eqn:?
         end.

Ltac unfold_bundle :=
  unfold fires, recommendation_bundle, temperature_section,
    soil_ph_section, rainfall_section.

Section Firing.

Variables (selected_crop : string) (crop_info : CropProfile) (i : PredictionInput).

#[local] Abbreviation bundle := (recommendation_bundle selected_crop crop_info i).

Lemma fires_low_temperature :
  fires low_temperature bundle <->
  (Temperature_C i < fst (temp_range crop_info))%Q.
Proof.
  rewrite <- lt_iff. unfold_bundle.
  case_tests; simpl; split; congruence.
Qed.

Lemma fires_high_temperature :
  fires high_temperature bundle <->
  ~ (Temperature_C i < fst (temp_range crop_info))%Q /\
  (snd (temp_range crop_info) < Temperature_C i)%Q.
Proof.
  rewrite <- !lt_iff. unfold_bundle.
  case_tests; simpl; intuition congruence.
Qed.

Lemma fires_soil_acidity :
  fires soil_acidity bundle <-> (Soil_pH i < fst (soil_ph crop_info))%Q.
Proof.
  rewrite <- lt_iff. unfold_bundle.
  case_tests; simpl; split; congruence.
Qed.

Lemma fires_alkaline_soil :
  fires alkaline_soil bundle <->
  ~ (Soil_pH i < fst (soil_ph crop_info))%Q /\
  (snd (soil_ph crop_info) < Soil_pH i)%Q.
Proof.
  rewrite <- !lt_iff. unfold_bundle.
  case_tests; simpl; intuition congruence.
Qed.

Lemma fires_insufficient_rainfall :
  fires insufficient_rainfall bundle <->
  (Rainfall_mm i < fst (rainfall crop_info))%Q.
Proof.
  rewrite <- lt_iff. unfold_bundle.
  case_tests; simpl; split; congruence.
Qed.

Lemma of_kind_growth_stage :
  of_kind growth_stage bundle = [growth_stage_section selected_crop crop_info].
Proof. unfold_bundle. case_tests; reflexivity. Qed.

Lemma of_kind_nutrient_management :
  of_kind nutrient_management bundle = [nutrient_section selected_crop].
Proof. unfold_bundle. case_tests; reflexivity. Qed.

(** A two-sided section obeys the boundary rule as soon as its range is
    not reversed; the [elif] alone gives "never both". *)
Lemma two_sided_rule (range : Q * Q) (v : Q) (low high : Prop) :
  (fst range <= snd range)%Q ->
  (low <-> (v < fst range)%Q) ->
  (high <-> ~ (v < fst range)%Q /\ (snd range < v)%Q) ->
  boundary_rule range v low high.
Proof.
  intros Hord Hlow Hhigh. unfold boundary_rule. rewrite Hlow, Hhigh.
  split; [|split; [|split]].
  - intros Hv. split; [exact Hv | tauto].
  - intros Hv.
    assert (Hnot : ~ (v < fst range)%Q).
    { apply Qle_not_lt. apply Qle_trans with (snd range); [assumption|].
      now apply Qlt_le_weak. }
    split; [split; assumption | assumption].
  - intros [Hlo Hhi]. split.
    + now apply Qle_not_lt.
    + intros [_ H]. revert H. now apply Qle_not_lt.
  - tauto.
Qed.

End Firing.

Lemma select_recommendations_Ok (crop : string) (i : PredictionInput)
    (bundle : list Advisory) :
  select_recommendations crop i = Ok bundle ->
  exists info, lookup crop = Ok info /\ bundle = recommendation_bundle crop info i.
Proof.
  unfold select_recommendations. destruct (lookup crop) as [info|e]; simpl.
  - intros E. injection E as <-. now exists info.
  - discriminate.
Qed.

(** ** The claims *)

(** C1.  For a supported crop and any submitted input, the temperature
    section obeys the boundary rule against the profile's temperature
    range: strictly below the minimum only the low-temperature block fires,
    strictly above the maximum only the high-temperature block fires, within
    the inclusive range neither fires, and never both.  The soil-pH section
    obeys the same rule against the profile's soil-pH range, with the
    acidity block below and the alkaline block above. *)
Theorem temperature_and_soil_ph_boundaries (crop : string) (i : PredictionInput) :
  supported crop ->
  exists info bundle,
    lookup crop = Ok info /\
    select_recommendations crop i = Ok bundle /\
    boundary_rule (temp_range info) (Temperature_C i)
      (fires low_temperature bundle) (fires high_temperature bundle) /\
    boundary_rule (soil_ph info) (Soil_pH i)
      (fires soil_acidity bundle) (fires alkaline_soil bundle).
Proof.
  intros Hs. destruct (lookup_supported crop Hs) as [info Hinfo].
  exists info, (recommendation_bundle crop info i).
  destruct (lookup_invariant _ _ Hinfo) as [Ht Hp _ _ _ _].
  split; [assumption|]. split.
  { unfold select_recommendations. now rewrite Hinfo. }
  split.
  - apply two_sided_rule.
    + now apply Qlt_le_weak.
    + apply fires_low_temperature.
    + apply fires_high_temperature.
  - apply two_sided_rule.
    + now apply Qlt_le_weak.
    + apply fires_soil_acidity.
    + apply fires_alkaline_soil.
Qed.

Lemma temperature_and_soil_ph_boundaries_witness :
  exists info bundle,
    lookup "Rice" = Ok info /\
    select_recommendations "Rice" cool_alkaline_dry = Ok bundle /\
    boundary_rule (temp_range info) 15
      (fires low_temperature bundle) (fires high_temperature bundle) /\
    boundary_rule (soil_ph info) 7.5
      (fires soil_acidity bundle) (fires alkaline_soil bundle).
Proof.
  apply (temperature_and_soil_ph_boundaries "Rice" cool_alkaline_dry).
  left. reflexivity.
Defined.

(** C2.  For a supported crop and any submitted input, the rainfall section
    emits its only block, the insufficient-rainfall one, exactly when the
    rainfall is strictly below the minimum of the profile's rainfall range;
    at or above that minimum, and so also strictly above the maximum, the
    section emits nothing and no rainfall block is in the bundle. *)
Theorem rainfall_block_only_below_minimum (crop : string) (i : PredictionInput) :
  supported crop ->
  exists info bundle,
    lookup crop = Ok info /\
    select_recommendations crop i = Ok bundle /\
    (fires insufficient_rainfall bundle <->
     (Rainfall_mm i < fst (rainfall info))%Q) /\
    ((Rainfall_mm i < fst (rainfall info))%Q ->
     exists block,
       rainfall_section crop info (Rainfall_mm i) = [block] /\
       kind_of block = insufficient_rainfall) /\
    ((fst (rainfall info) <= Rainfall_mm i)%Q ->
     rainfall_section crop info (Rainfall_mm i) = [] /\
     ~ fires insufficient_rainfall bundle) /\
    ((snd (rainfall info) < Rainfall_mm i)%Q ->
     rainfall_section crop info (Rainfall_mm i) = [] /\
     ~ fires insufficient_rainfall bundle).
Proof.
  intros Hs. destruct (lookup_supported crop Hs) as [info Hinfo].
  exists info, (recommendation_bundle crop info i).
  destruct (lookup_invariant _ _ Hinfo) as [_ _ Hr _ _ _].
  assert (Hge : (fst (rainfall info) <= Rainfall_mm i)%Q ->
                rainfall_section crop info (Rainfall_mm i) = [] /\
                ~ fires insufficient_rainfall (recommendation_bundle crop info i)).
  { intros Hmin. rewrite fires_insufficient_rainfall. split.
    - unfold rainfall_section. apply lt_false_iff in Hmin. now rewrite Hmin.
    - now apply Qle_not_lt. }
  split; [assumption|]. split.
  { unfold select_recommendations. now rewrite Hinfo. }
  split; [apply fires_insufficient_rainfall|].
  split; [|split].
  - intros Hlt. unfold rainfall_section. apply lt_iff in Hlt. rewrite Hlt.
    eexists. split; reflexivity.
  - exact Hge.
  - intros Hmax. apply Hge. apply Qlt_le_weak.
    now apply Qlt_trans with (snd (rainfall info)).
Qed.

Lemma rainfall_block_only_below_minimum_witness :
  exists bundle,
    select_recommendations "Corn" cool_alkaline_dry = Ok bundle /\
    fires insufficient_rainfall bundle.
Proof.
  destruct (rainfall_block_only_below_minimum "Corn" cool_alkaline_dry)
    as (info & bundle & Hinfo & Hbundle & Hiff & _).
  - right. right. left. reflexivity.
  - exists bundle. split; [assumption|].
    apply Hiff. vm_compute in Hinfo. injection Hinfo as <-. reflexivity.
Defined.

(** C3.  For a supported crop the growth-stage section and the
    nutrient-management section are in the bundle of every submission, once
    each, and they are the same two sections whatever the seven input values
    are: their content is a function of the crop alone. *)
Theorem growth_and_nutrient_sections_unconditional (crop : string) :
  supported crop ->
  exists growth nutrient,
    kind_of growth = growth_stage /\
    kind_of nutrient = nutrient_management /\
    forall i : PredictionInput,
    exists bundle,
      select_recommendations crop i = Ok bundle /\
      fires growth_stage bundle /\
      fires nutrient_management bundle /\
      of_kind growth_stage bundle = [growth] /\
      of_kind nutrient_management bundle = [nutrient].
Proof.
  intros Hs. destruct (lookup_supported crop Hs) as [info Hinfo].
  exists (growth_stage_section crop info), (nutrient_section crop).
  split; [reflexivity|]. split; [reflexivity|].
  intros i. exists (recommendation_bundle crop info i).
  unfold select_recommendations, fires. rewrite Hinfo.
  rewrite of_kind_growth_stage, of_kind_nutrient_management.
  repeat split; discriminate.
Qed.

Lemma growth_and_nutrient_sections_unconditional_witness :
  exists growth nutrient,
    forall i : PredictionInput,
    exists bundle,
      select_recommendations "Soybean" i = Ok bundle /\
      of_kind growth_stage bundle = [growth] /\
      of_kind nutrient_management bundle = [nutrient].
Proof.
  destruct (growth_and_nutrient_sections_unconditional "Soybean")
    as (growth & nutrient & _ & _ & H).
  - right. right. right. reflexivity.
  - exists growth, nutrient. intros i.
    destruct (H i) as (bundle & Hb & _ & _ & Hg & Hn).
    exists bundle. split; [assumption | split; assumption].
Defined.

(** ** The feature row *)

Lemma select_columns_In (columns : list string) (d : gmap string Q)
    (row : list (string * Q)) :
  select_columns columns d = Ok row ->
  forall c v, In (c, v) row <-> In c columns /\ d !! c = Some v.
Proof.
  revert row. induction columns as [|c0 columns IH]; simpl; intros row.
  - intros E. injection E as <-. simpl. tauto.
  - destruct (d !! c0) as [v0|] eqn:Hc0; [|discriminate].
    destruct (select_columns columns d) as [rest|e]; simpl; [|discriminate].
    intros E. injection E as <-. intros c v. simpl. rewrite (IH rest eq_refl).
    split.
    + intros [E|[Hin Hv]].
      * injection E as <- <-. split; [now left | assumption].
      * split; [now right | assumption].
    + intros [[<-|Hin] Hv].
      * left. congruence.
      * right. now split.
Qed.

Lemma select_columns_total (columns : list string) (d : gmap string Q) :
  (forall c, In c columns -> is_Some (d !! c)) ->
  exists row, select_columns columns d = Ok row.
Proof.
  induction columns as [|c0 columns IH]; simpl; intros Hall.
  - now exists [].
  - destruct (Hall c0 (or_introl eq_refl)) as [v0 ->].
    destruct IH as [rest ->]; [intros c Hc; apply Hall; now right|].
    simpl. eauto.
Qed.

Lemma input_data_indicator (selected_crop crop : string) (i : PredictionInput) :
  supported crop ->
  input_data selected_crop i !! crop_column crop
  = Some (if String.eqb crop selected_crop then 1%Q else 0%Q).
Proof.
  intros [-> | [-> | [-> | ->]]]; unfold input_data;
    rewrite keys_CROP_CONDITIONS; simpl foldl;
    repeat (rewrite lookup_insert_ne by (vm_compute; congruence));
    apply lookup_insert_eq.
Qed.

(** C4.  For every selection among the four supported crops, the row handed
    to the predictor holds 1 in the indicator column of the selected crop
    and 0 in the indicator columns of the three other crops, so that exactly
    one crop indicator is set: an indicator cell of the row holds 1 if and
    only if it is the selected crop's.  The training schema is a parameter;
    it is assumed to contain the four indicator columns. *)
Theorem crop_indicator_one_hot (X_columns : list string) (selected_crop : string)
    (i : PredictionInput) (row : list (string * Q)) :
  supported selected_crop ->
  (forall crop, supported crop -> In (crop_column crop) X_columns) ->
  select_columns X_columns (input_data selected_crop i) = Ok row ->
  In (crop_column selected_crop, 1%Q) row /\
  (forall crop, supported crop -> crop <> selected_crop ->
     In (crop_column crop, 0%Q) row) /\
  (forall crop v, supported crop -> In (crop_column crop, v) row ->
     (crop = selected_crop /\ v = 1%Q) \/ (crop <> selected_crop /\ v = 0%Q)).
Proof.
  intros Hsel Hschema Hrow.
  pose proof (select_columns_In _ _ _ Hrow) as Hin.
  split; [|split].
  - apply Hin. split; [now apply Hschema|].
    rewrite input_data_indicator by assumption. now rewrite String.eqb_refl.
  - intros crop Hcrop Hne. apply Hin. split; [now apply Hschema|].
    rewrite input_data_indicator by assumption.
    now destruct (String.eqb_spec crop selected_crop).
  - intros crop v Hcrop Hcell. apply Hin in Hcell as [_ Hv].
    rewrite input_data_indicator in Hv by assumption.
    destruct (String.eqb_spec crop selected_crop); injection Hv as <-; tauto.
Qed.

Lemma crop_indicator_one_hot_witness :
  exists row,
    select_columns sample_schema (input_data "Wheat" cool_alkaline_dry) = Ok row /\
    In ("Crop_Type_Wheat", 1%Q) row /\
    In ("Crop_Type_Rice", 0%Q) row.
Proof.
  destruct (select_columns sample_schema (input_data "Wheat" cool_alkaline_dry))
    as [row|e] eqn:E; [|vm_compute in E; discriminate E].
  exists row. split; [reflexivity|].
  destruct (crop_indicator_one_hot sample_schema "Wheat" cool_alkaline_dry row)
    as (Hone & Hzero & _).
  - right. left. reflexivity.
  - intros crop [-> | [-> | [-> | ->]]]; vm_compute; tauto.
  - exact E.
  - split; [exact Hone|].
    apply (Hzero "Rice"); [left; reflexivity | discriminate].
Defined.

(** ** The farmer page *)

Section FarmerPage.

Variables (X_columns : list string) (predict : list (string * Q) -> Q) (y_mean : Q).

Lemma farmer_submit_Ok (crop : string) (i : PredictionInput) (page : FarmerPage) :
  farmer_submit X_columns predict y_mean crop i = Ok page ->
  exists info row,
    lookup crop = Ok info /\
    select_columns X_columns (input_data crop i) = Ok row /\
    predicted_yield page = predict row /\
    assessment page = farmer_assessment (predict row) y_mean /\
    recommendations page = recommendation_bundle crop info i.
Proof.
  unfold farmer_submit. destruct (lookup crop) as [info|e]; simpl; [|discriminate].
  destruct (select_columns X_columns (input_data crop i)) as [row|e]; simpl;
    [|discriminate].
  intros E. injection E as <-. exists info, row. simpl. tauto.
Qed.

Lemma farmer_submit_recommendations (crop : string) (i : PredictionInput)
    (page : FarmerPage) :
  farmer_submit X_columns predict y_mean crop i = Ok page ->
  select_recommendations crop i = Ok (recommendations page).
Proof.
  intros H. apply farmer_submit_Ok in H as (info & row & Hinfo & _ & _ & _ & ->).
  unfold select_recommendations. now rewrite Hinfo.
Qed.

End FarmerPage.

Lemma In_recommendation_bundle (crop : string) (info : CropProfile)
    (i : PredictionInput) (a : Advisory) :
  In a (recommendation_bundle crop info i) <->
  In a (temperature_section crop info (Temperature_C i)) \/
  In a (soil_ph_section crop info (Soil_pH i)) \/
  In a (rainfall_section crop info (Rainfall_mm i)) \/
  a = growth_stage_section crop info \/
  a = nutrient_section crop.
Proof.
  unfold recommendation_bundle. rewrite !in_app_iff. simpl.
  intuition congruence.
Qed.

(** The three per-crop constants, read off the two-element name lists. *)
Lemma lime_dose_cases (crop : string) :
  (crop = "Rice" \/ crop = "Corn" -> lime_dose crop = 2000%Z) /\
  (crop <> "Rice" -> crop <> "Corn" -> lime_dose crop = 1500%Z).
Proof.
  unfold lime_dose, str_in. simpl.
  destruct (String.eqb_spec crop "Rice"), (String.eqb_spec crop "Corn");
    simpl; intuition congruence.
Qed.

Lemma sulfur_dose_cases (crop : string) :
  (crop = "Rice" \/ crop = "Soybean" -> sulfur_dose crop = 300%Z) /\
  (crop <> "Rice" -> crop <> "Soybean" -> sulfur_dose crop = 400%Z).
Proof.
  unfold sulfur_dose, str_in. simpl.
  destruct (String.eqb_spec crop "Rice"), (String.eqb_spec crop "Soybean");
    simpl; intuition congruence.
Qed.

Lemma emitter_spacing_cases (crop : string) :
  (crop = "Rice" \/ crop = "Wheat" -> emitter_spacing crop = "emitters every 30cm") /\
  (crop <> "Rice" -> crop <> "Wheat" -> emitter_spacing crop = "emitters every 45cm").
Proof.
  unfold emitter_spacing, str_in. simpl.
  destruct (String.eqb_spec crop "Rice"), (String.eqb_spec crop "Wheat");
    simpl; intuition congruence.
Qed.

Lemma In_soil_ph_section (crop : string) (info : CropProfile) (v : Q) (a : Advisory) :
  In a (soil_ph_section crop info v) ->
  a = SoilAcidity v crop (lime_dose crop) \/ a = AlkalineSoil v crop (sulfur_dose crop).
Proof.
  unfold soil_ph_section. case_tests; simpl; intuition.
Qed.

Lemma In_rainfall_section (crop : string) (info : CropProfile) (v : Q) (a : Advisory) :
  In a (rainfall_section crop info v) ->
  exists pressure mulch stages,
    a = InsufficientRainfall v crop (emitter_spacing crop) pressure mulch stages.
Proof.
  unfold rainfall_section. case_tests; simpl; [|tauto].
  intros [<-|[]]. eauto.
Qed.

Lemma In_temperature_section (crop : string) (info : CropProfile) (v : Q) (a : Advisory) :
  In a (temperature_section crop info v) ->
  (exists target moisture, a = LowTemperature v crop target moisture) \/
  (exists shift, a = HighTemperature v crop shift).
Proof.
  unfold temperature_section. case_tests; simpl; [| |tauto].
  - intros [<-|[]]. left. eauto.
  - intros [<-|[]]. right. eauto.
Qed.

(** Where a block of a given shape can come from. *)
Ltac locate_block H :=
  apply In_recommendation_bundle in H as [H | [H | [H | [H | H]]]];
  [ apply In_temperature_section in H as [(? & ? & H) | (? & H)]
  | apply In_soil_ph_section in H as [H | H]
  | apply In_rainfall_section in H as (? & ? & ? & H)
  | unfold growth_stage_section in H
  | unfold nutrient_section in H ];
  try discriminate H.

(** C5.  The numeric constants of the advisory text are fixed by the crop
    name through two-element name sets, whatever the fitted model predicts:
    a soil-acidity block carries a lime dose of 2000 kg/ha for Rice and Corn
    and 1500 kg/ha for any other crop; an alkaline-soil block carries a
    sulfur dose of 300 kg/ha for Rice and Soybean and 400 kg/ha for any
    other crop, so Wheat with a pH above 7.0 is told 400 kg/ha; an
    insufficient-rainfall block spaces emitters every 30cm for Rice and
    Wheat and every 45cm for any other crop.  Two pages for the same crop
    and input carry the same sections, whichever model and target mean
    produced them. *)
Theorem advisory_constants_fixed_by_crop (X_columns : list string)
    (predict : list (string * Q) -> Q) (y_mean : Q)
    (crop : string) (i : PredictionInput) (page : FarmerPage) :
  farmer_submit X_columns predict y_mean crop i = Ok page ->
  (forall ph c lime, In (SoilAcidity ph c lime) (recommendations page) ->
     (crop = "Rice" \/ crop = "Corn" -> lime = 2000%Z) /\
     (crop <> "Rice" -> crop <> "Corn" -> lime = 1500%Z)) /\
  (forall ph c sulfur, In (AlkalineSoil ph c sulfur) (recommendations page) ->
     (crop = "Rice" \/ crop = "Soybean" -> sulfur = 300%Z) /\
     (crop <> "Rice" -> crop <> "Soybean" -> sulfur = 400%Z)) /\
  (forall rain c emitters pressure mulch stages,
     In (InsufficientRainfall rain c emitters pressure mulch stages)
        (recommendations page) ->
     (crop = "Rice" \/ crop = "Wheat" -> emitters = "emitters every 30cm") /\
     (crop <> "Rice" -> crop <> "Wheat" -> emitters = "emitters every 45cm")) /\
  (crop = "Wheat" -> (7.0 < Soil_pH i)%Q ->
     In (AlkalineSoil (Soil_pH i) "Wheat" 400%Z) (recommendations page)) /\
  (forall predict' y_mean' page',
     farmer_submit X_columns predict' y_mean' crop i = Ok page' ->
     recommendations page' = recommendations page).
Proof.
  intros H.
  apply farmer_submit_Ok in H as (info & row & Hinfo & Hrow & _ & _ & Hrec).
  rewrite Hrec. split; [|split; [|split; [|split]]].
  - intros ph c lime Hin. locate_block Hin.
    injection Hin as _ _ ->. apply lime_dose_cases.
  - intros ph c sulfur Hin. locate_block Hin.
    injection Hin as _ _ ->. apply sulfur_dose_cases.
  - intros rain c emitters pressure mulch stages Hin. locate_block Hin.
    injection Hin as _ _ -> _ _ _. apply emitter_spacing_cases.
  - intros -> Hph. vm_compute in Hinfo. injection Hinfo as <-.
    apply In_recommendation_bundle. right. left.
    unfold soil_ph_section. simpl fst. simpl snd.
    assert (Hlow : lt (Soil_pH i) 6.0 = false).
    { apply lt_false_iff. apply Qlt_le_weak.
      apply Qlt_trans with 7.0%Q; [reflexivity | assumption]. }
    assert (Hhigh : gt (Soil_pH i) 7.0 = true) by now apply gt_iff.
    rewrite Hlow, Hhigh. now left.
  - intros predict' y_mean' page' H'.
    apply farmer_submit_Ok in H' as (info' & row' & Hinfo' & _ & _ & _ & ->).
    congruence.
Qed.

Lemma advisory_constants_fixed_by_crop_witness :
  exists page,
    farmer_submit sample_schema sample_model 5 "Wheat" cool_alkaline_dry = Ok page /\
    In (AlkalineSoil 7.5 "Wheat" 400%Z) (recommendations page).
Proof.
  destruct (farmer_submit sample_schema sample_model 5 "Wheat" cool_alkaline_dry)
    as [page|e] eqn:E; [|vm_compute in E; discriminate E].
  exists page. split; [reflexivity|].
  destruct (advisory_constants_fixed_by_crop _ _ _ _ _ _ E) as (_ & _ & _ & Hwheat & _).
  apply Hwheat; reflexivity.
Defined.

(** C6.  Looking up a crop name outside Rice, Wheat, Corn and Soybean raises
    (Python's [KeyError], the failure the specification calls
    [UnknownCropError]) and yields no profile; the selector propagates the
    same failure.  For the four supported names the lookup returns a profile
    and the selector returns a bundle for every input. *)
Theorem lookup_fails_exactly_on_unknown_crops (crop : string) :
  (~ supported crop ->
     lookup crop = Raise (KeyError crop) /\
     forall i, select_recommendations crop i = Raise (KeyError crop)) /\
  (supported crop ->
     (exists info, lookup crop = Ok info) /\
     forall i, exists bundle, select_recommendations crop i = Ok bundle).
Proof.
  split.
  - intros Hno. pose proof (lookup_unsupported crop Hno) as Hraise.
    split; [assumption|]. intros i. unfold select_recommendations.
    now rewrite Hraise.
  - intros Hyes. destruct (lookup_supported crop Hyes) as [info Hinfo].
    split; [now exists info|]. intros i. unfold select_recommendations.
    rewrite Hinfo. simpl. eauto.
Qed.

Lemma lookup_fails_exactly_on_unknown_crops_witness :
  lookup "Barley" = Raise (KeyError "Barley") /\
  exists info, lookup "Rice" = Ok info.
Proof.
  split.
  - apply (proj1 (lookup_fails_exactly_on_unknown_crops "Barley")).
    unfold supported. intros [H | [H | [H | H]]]; discriminate H.
  - apply (proj2 (lookup_fails_exactly_on_unknown_crops "Rice")).
    left. reflexivity.
Defined.

(** C7.  For each of the four supported crops the profile returned by the
    lookup satisfies the range invariants: in each of its four ranges the
    minimum is strictly below the maximum, the soil-pH range lies within
    0 and 14, and the soil-moisture range lies within 0 and 1. *)
Theorem lookup_range_invariants (crop : string) :
  supported crop ->
  exists info, lookup crop = Ok info /\ profile_invariant info.
Proof.
  intros Hs. destruct (lookup_supported crop Hs) as [info Hinfo].
  exists info. split; [assumption|]. now apply lookup_invariant with crop.
Qed.

Lemma lookup_range_invariants_witness :
  exists info, lookup "Corn" = Ok info /\ profile_invariant info.
Proof.
  apply (lookup_range_invariants "Corn"). right. right. left. reflexivity.
Defined.

(** ** Comparing a prediction with the target mean *)

Lemma farmer_assessment_above (prediction y_mean : Q) :
  (y_mean < prediction)%Q ->
  farmer_assessment prediction y_mean = "excellent growing conditions".
Proof. intros H. unfold farmer_assessment. apply gt_iff in H. now rewrite H. Qed.

Lemma farmer_assessment_not_above (prediction y_mean : Q) :
  (prediction <= y_mean)%Q ->
  farmer_assessment prediction y_mean = "some areas that need attention".
Proof. intros H. unfold farmer_assessment. apply gt_false_iff in H. now rewrite H. Qed.

Lemma market_position_below (prediction y_mean : Q) :
  (prediction < y_mean)%Q ->
  variant_of (market_position prediction y_mean) = below_average.
Proof. intros H. unfold market_position. apply lt_iff in H. now rewrite H. Qed.

Lemma market_position_not_below (prediction y_mean : Q) :
  (y_mean <= prediction)%Q ->
  variant_of (market_position prediction y_mean) = above_average.
Proof. intros H. unfold market_position. apply lt_false_iff in H. now rewrite H. Qed.

Lemma market_position_score (prediction y_mean : Q) :
  ~ (y_mean == 0)%Q ->
  score_of (market_position prediction y_mean) = (prediction / y_mean * 100)%Q.
Proof. intros _. unfold market_position. now destruct (lt prediction y_mean). Qed.

(** C9.  When the prediction equals the target mean the two paths differ:
    the farmer path tests [prediction > mean] and reports "some areas that
    need attention"; the market path tests [prediction < mean] and shows
    the above-average growth-strategy banner. *)
Theorem tie_with_the_mean (prediction y_mean : Q) :
  (prediction == y_mean)%Q ->
  farmer_assessment prediction y_mean = "some areas that need attention" /\
  variant_of (market_position prediction y_mean) = above_average.
Proof.
  intros Heq. split.
  - apply farmer_assessment_not_above. rewrite Heq. apply Qle_refl.
  - apply market_position_not_below. rewrite Heq. apply Qle_refl.
Qed.

Lemma tie_with_the_mean_witness :
  farmer_assessment 4.2 4.2 = "some areas that need attention" /\
  variant_of (market_position 4.2 4.2) = above_average.
Proof. apply tie_with_the_mean. reflexivity. Defined.

(** ** The risk alerts *)

Lemma risk_below_mean (X_mean : string -> Q) (data : dict Q) :
  risk X_mean data = length (below_mean X_mean data).
Proof.
  unfold risk, below_mean. rewrite count_if_length. f_equal.
  apply List.filter_ext. intros [col val]. simpl.
  destruct (Qlt_le_dec val (X_mean col)) as [H|H].
  - now apply lt_iff.
  - now apply lt_false_iff.
Qed.

Lemma more_than_half (r l : nat) :
  gt (inject_Z (Z.of_nat r)) (inject_Z (Z.of_nat l) / 2)%Q = true <->
  (l < 2 * r)%nat.
Proof.
  rewrite gt_iff. unfold Qlt, Qdiv, Qmult, Qinv, inject_Z. simpl. lia.
Qed.

Lemma risk_detected_iff (X_mean : string -> Q) (data : dict Q) :
  risk_detected X_mean data = true <->
  (length data < 2 * length (below_mean X_mean data))%nat.
Proof. unfold risk_detected. now rewrite more_than_half, risk_below_mean. Qed.

Lemma In_risk_assessment (X_mean : string -> Q)
    (price_data market_data economic_data : dict Q) (a : RiskAlert) :
  In a (risk_assessment X_mean price_data market_data economic_data) <->
  (a = HighPriceRisk /\ risk_detected X_mean price_data = true) \/
  (a = MarketRiskAlert /\ risk_detected X_mean market_data = true) \/
  (a = EconomicRiskFactors /\ risk_detected X_mean economic_data = true).
Proof.
  unfold risk_assessment. rewrite !in_app_iff.
  destruct (risk_detected X_mean price_data), (risk_detected X_mean market_data),
    (risk_detected X_mean economic_data); simpl; intuition congruence.
Qed.

(** C10.  Each of the three risk alerts of the market path is raised if and
    only if strictly more than half of the values of its group are strictly
    below the mean of their training column.  A group with exactly half of
    its values below, and an empty group, raise nothing. *)
Theorem risk_alert_iff_majority_below_mean (X_mean : string -> Q)
    (price_data market_data economic_data : dict Q) :
  let alerts := risk_assessment X_mean price_data market_data economic_data in
  let fires_for (alert : RiskAlert) (data : dict Q) : Prop :=
    (In alert alerts <->
       (length data < 2 * length (below_mean X_mean data))%nat) /\
    ((2 * length (below_mean X_mean data) = length data)%nat -> ~ In alert alerts) /\
    (data = [] -> ~ In alert alerts) in
  fires_for HighPriceRisk price_data /\
  fires_for MarketRiskAlert market_data /\
  fires_for EconomicRiskFactors economic_data.
Proof.
  intros alerts fires_for.
  assert (Hrule : forall alert data,
             (In alert alerts <-> risk_detected X_mean data = true) ->
             fires_for alert data).
  { intros alert data Hiff. unfold fires_for. rewrite Hiff, risk_detected_iff.
    split; [tauto|]. split.
    - lia.
    - intros ->. simpl. lia. }
  subst alerts.
  split; [|split]; apply Hrule; rewrite In_risk_assessment; intuition congruence.
Qed.

Lemma risk_alert_iff_majority_below_mean_witness :
  ~ In HighPriceRisk (risk_assessment flat_means half_price weak_market no_economic) /\
  In MarketRiskAlert (risk_assessment flat_means half_price weak_market no_economic) /\
  ~ In EconomicRiskFactors (risk_assessment flat_means half_price weak_market no_economic).
Proof.
  destruct (risk_alert_iff_majority_below_mean flat_means half_price weak_market
              no_economic) as ((_ & Hhalf & _) & (Hmarket & _) & (_ & _ & Hempty)).
  split; [|split].
  - apply Hhalf. reflexivity.
  - apply Hmarket. vm_compute. lia.
  - apply Hempty. reflexivity.
Defined.

(** C8, as the code has it.  The message variant depends only on how the
    prediction compares with the target mean: two runs whose predictions
    compare alike with their means get the same farmer assessment
    ("excellent growing conditions" exactly above the mean, "some areas that
    need attention" otherwise) and the same market banner variant (the
    below-average one exactly below the mean, the growth one otherwise).
    For a non-zero mean the market banner additionally carries the
    prediction as a percentage of the mean. *)
Theorem variant_depends_only_on_comparison (p1 m1 p2 m2 : Q) :
  Qcompare p1 m1 = Qcompare p2 m2 ->
  farmer_assessment p1 m1 = farmer_assessment p2 m2 /\
  variant_of (market_position p1 m1) = variant_of (market_position p2 m2) /\
  (farmer_assessment p1 m1 = "excellent growing conditions" <-> (m1 < p1)%Q) /\
  (variant_of (market_position p1 m1) = below_average <-> (p1 < m1)%Q) /\
  (~ (m1 == 0)%Q ->
     score_of (market_position p1 m1) = (p1 / m1 * 100)%Q).
Proof.
  intros Hcmp.
  assert (Hlt : lt p1 m1 = lt p2 m2) by (unfold lt; now rewrite Hcmp).
  assert (Hgt : gt p1 m1 = gt p2 m2).
  { unfold gt, lt. rewrite <- (Qcompare_antisym p1 m1), <- (Qcompare_antisym p2 m2).
    now rewrite Hcmp. }
  split; [|split; [|split; [|split]]].
  - unfold farmer_assessment. now rewrite Hgt.
  - unfold market_position. rewrite Hlt. now destruct (lt p2 m2).
  - rewrite <- gt_iff. unfold farmer_assessment.
    destruct (gt p1 m1); split; congruence.
  - rewrite <- lt_iff. unfold market_position.
    destruct (lt p1 m1); simpl; split; congruence.
  - apply market_position_score.
Qed.

Lemma variant_depends_only_on_comparison_witness :
  farmer_assessment 50 100 = farmer_assessment 80 100 /\
  variant_of (market_position 50 100) = variant_of (market_position 80 100) /\
  score_of (market_position 50 100) = (50 / 100 * 100)%Q.
Proof.
  destruct (variant_depends_only_on_comparison 50 100 80 100 eq_refl)
    as (Hf & Hm & _ & _ & Hscore).
  split; [assumption|]. split; [assumption|].
  apply Hscore. intros Hzero. discriminate Hzero.
Defined.

(** C8, as it is written, fails on its last clause: two market runs on the
    same side of the mean (50 and 80 against a mean of 100) get the same
    banner variant but not the same banner, because the banner shows
    [prediction / mean * 100]: 50 for the first run, 80 for the second. *)
Lemma market_banner_reads_the_magnitude :
  Qcompare 50 100 = Qcompare 80 100 /\
  market_position 50 100 = ShortTermStrategy (50 / 100 * 100) /\
  market_position 80 100 = ShortTermStrategy (80 / 100 * 100) /\
  ~ same_banner (market_position 50 100) (market_position 80 100).
Proof.
  split; [reflexivity|]. split; [reflexivity|]. split; [reflexivity|].
  intros [_ Hscore]. vm_compute in Hscore. discriminate Hscore.
Qed.

(** * Further properties of the farmer path *)

(** ** The form and the bundle *)

(** For each supported crop the form opens with every slider inside its
    bounds, and submitting it untouched yields the growth-stage and the
    nutrient-management sections and no other: the initial temperature of
    25 lies in every crop's range and the initial rainfall and pH are the
    minima of the ranges, which the strict comparisons let pass. *)
Theorem untouched_form_gives_no_warning (crop : string) :
  supported crop ->
  exists info,
    lookup crop = Ok info /\
    Forall opens_in_bounds (sliders (farmer_form info)) /\
    select_recommendations crop (untouched (farmer_form info))
    = Ok [growth_stage_section crop info; nutrient_section crop].
Proof.
  intros [-> | [-> | [-> | ->]]]; eexists; (split; [reflexivity|]); split;
    try reflexivity;
    repeat constructor; unfold Qle; simpl; lia.
Qed.

Lemma untouched_form_gives_no_warning_witness :
  exists info,
    lookup "Wheat" = Ok info /\
    select_recommendations "Wheat" (untouched (farmer_form info))
    = Ok [growth_stage_section "Wheat" info; nutrient_section "Wheat"].
Proof.
  destruct (untouched_form_gives_no_warning "Wheat") as (info & Hinfo & _ & Hb).
  - right. left. reflexivity.
  - exists info. split; assumption.
Defined.

Ltac sublist_of_order :=
  repeat first [ apply sublist_nil | apply sublist_skip | apply sublist_cons ].

(** Whatever the crop profile and the input, the sections come in the
    rendering order of the page with no kind twice: between two and five
    sections, the last two being growth-stage and nutrient-management. *)
Theorem sections_follow_rendering_order (crop : string) (info : CropProfile)
    (i : PredictionInput) :
  let kinds := map kind_of (recommendation_bundle crop info i) in
  sublist kinds rendering_order /\
  List.NoDup kinds /\
  (2 <= length kinds <= 5)%nat /\
  exists front, kinds = front ++ [growth_stage; nutrient_management].
Proof.
  unfold recommendation_bundle, temperature_section, soil_ph_section,
    rainfall_section, rendering_order.
  case_tests; simpl;
    (split; [sublist_of_order|]);
    (split; [apply NoDup_ListNoDup, (bool_decide_unpack _); exact I|]);
    (split; [lia|]);
    match goal with
    | |- exists front, ?l = _ =>
        exists (firstn (length l - 2) l); reflexivity
    end.
Qed.

(** ** The feature row and the outcome of a submission *)

Lemma input_data_keys (selected_crop : string) (i : PredictionInput) (c : string) :
  is_Some (input_data selected_crop i !! c) <-> In c input_columns.
Proof.
  unfold input_data. rewrite keys_CROP_CONDITIONS. simpl foldl.
  rewrite !lookup_insert_is_Some'.
  pose proof (lookup_empty_is_Some (M := gmap string) (A := Q) c) as Hempty.
  unfold input_columns, crop_column. simpl. intuition congruence.
Qed.

Lemma select_columns_fst (columns : list string) (d : gmap string Q)
    (row : list (string * Q)) :
  select_columns columns d = Ok row -> map fst row = columns.
Proof.
  revert row. induction columns as [|c columns IH]; simpl; intros row.
  - intros E. now injection E as <-.
  - destruct (d !! c) as [v|]; [|discriminate].
    destruct (select_columns columns d) as [rest|e]; simpl; [|discriminate].
    intros E. injection E as <-. simpl. now rewrite (IH rest eq_refl).
Qed.

Lemma select_columns_some_missing (columns : list string) (d : gmap string Q) :
  (exists c, In c columns /\ d !! c = None) ->
  exists key, select_columns columns d = Raise (KeyError key).
Proof.
  induction columns as [|c0 columns IH]; simpl; intros (c & Hin & Hc).
  - contradiction.
  - destruct (d !! c0) as [v0|] eqn:Hc0; [|now exists c0].
    destruct IH as [key Hkey].
    + destruct Hin as [<- | Hin]; [congruence | now exists c].
    + exists key. now rewrite Hkey.
Qed.

Lemma farmer_submit_total (X_columns : list string)
    (predict : list (string * Q) -> Q) (y_mean : Q)
    (crop : string) (i : PredictionInput) :
  supported crop ->
  (forall c, In c X_columns -> In c input_columns) ->
  exists info row,
    lookup crop = Ok info /\
    select_columns X_columns (input_data crop i) = Ok row /\
    farmer_submit X_columns predict y_mean crop i
    = Ok {| predicted_yield := predict row;
            assessment := farmer_assessment (predict row) y_mean;
            recommendations := recommendation_bundle crop info i |}.
Proof.
  intros Hs Hcols. destruct (lookup_supported crop Hs) as [info Hinfo].
  destruct (select_columns_total X_columns (input_data crop i)) as [row Hrow].
  { intros c Hc. apply input_data_keys. now apply Hcols. }
  exists info, row. unfold farmer_submit. rewrite Hinfo. simpl. now rewrite Hrow.
Qed.

(** The outcome of a submission, the fitted model being a function that
    returns.  An unsupported crop name raises [KeyError] on that name,
    whatever the schema.  With a supported crop, a training schema that
    holds a column outside the eleven keys of [input_data] makes the column
    selection raise a [KeyError], the same for every model: the model is not
    consulted.  With a supported crop and a schema within those keys the
    page is produced, and the model is given exactly the schema's columns. *)
Theorem farmer_submit_outcome (X_columns : list string) (crop : string)
    (i : PredictionInput) :
  (~ supported crop ->
     forall predict y_mean,
       farmer_submit X_columns predict y_mean crop i = Raise (KeyError crop)) /\
  (supported crop ->
     (exists c, In c X_columns /\ ~ In c input_columns) ->
     exists key,
       forall predict y_mean,
         farmer_submit X_columns predict y_mean crop i = Raise (KeyError key)) /\
  (supported crop ->
     (forall c, In c X_columns -> In c input_columns) ->
     forall predict y_mean,
     exists page row,
       farmer_submit X_columns predict y_mean crop i = Ok page /\
       predicted_yield page = predict row /\
       map fst row = X_columns).
Proof.
  split; [|split].
  - intros Hno predict y_mean. unfold farmer_submit.
    now rewrite (lookup_unsupported crop Hno).
  - intros Hs (c & Hin & Hout).
    destruct (lookup_supported crop Hs) as [info Hinfo].
    destruct (select_columns_some_missing X_columns (input_data crop i))
      as [key Hkey].
    { exists c. split; [assumption|].
      apply eq_None_not_Some. now rewrite input_data_keys. }
    exists key. intros predict y_mean. unfold farmer_submit.
    rewrite Hinfo. simpl. now rewrite Hkey.
  - intros Hs Hcols predict y_mean.
    destruct (farmer_submit_total X_columns predict y_mean crop i Hs Hcols)
      as (info & row & _ & Hrow & Hpage).
    eexists. exists row. split; [exact Hpage|]. split; [reflexivity|].
    now apply select_columns_fst with (input_data crop i).
Qed.

Lemma farmer_submit_outcome_witness :
  farmer_submit sample_schema sample_model 5 "Barley" cool_alkaline_dry
  = Raise (KeyError "Barley") /\
  (exists key,
     farmer_submit ("Soil_pH" :: "Humidity" :: sample_schema) sample_model 5
       "Rice" cool_alkaline_dry
     = Raise (KeyError key)) /\
  exists page,
    farmer_submit sample_schema sample_model 5 "Rice" cool_alkaline_dry = Ok page.
Proof.
  split; [|split].
  - apply farmer_submit_outcome.
    intros [H | [H | [H | H]]]; discriminate H.
  - destruct (proj1 (proj2 (farmer_submit_outcome
                              ("Soil_pH" :: "Humidity" :: sample_schema)
                              "Rice" cool_alkaline_dry)))
      as [key Hkey].
    + left. reflexivity.
    + exists "Humidity". split; [right; left; reflexivity|].
      unfold input_columns. simpl. intuition discriminate.
    + exists key. apply Hkey.
  - destruct (proj2 (proj2 (farmer_submit_outcome sample_schema "Rice"
                              cool_alkaline_dry)))
      with (predict := sample_model) (y_mean := 5%Q)
      as (page & row & Hpage & _).
    + left. reflexivity.
    + intros c Hc. simpl in Hc. unfold input_columns. simpl.
      intuition congruence.
    + now exists page.
Defined.

Lemma input_data_numeric (selected_crop : string) (i : PredictionInput) :
  input_data selected_crop i !! "Temperature_C" = Some (Temperature_C i) /\
  input_data selected_crop i !! "Rainfall_mm" = Some (Rainfall_mm i) /\
  input_data selected_crop i !! "Soil_pH" = Some (Soil_pH i) /\
  input_data selected_crop i !! "Soil_Moisture" = Some (Soil_Moisture i) /\
  input_data selected_crop i !! "Fertilizer_Usage_kg" = Some (Fertilizer_Usage_kg i) /\
  input_data selected_crop i !! "Pesticide_Usage_kg" = Some (Pesticide_Usage_kg i) /\
  input_data selected_crop i !! "Sustainability_Score" = Some (Sustainability_Score i).
Proof.
  unfold input_data. rewrite keys_CROP_CONDITIONS. simpl foldl.
  repeat split;
    repeat (rewrite lookup_insert_ne by (vm_compute; congruence));
    apply lookup_insert_eq.
Qed.

(** The row given to the model has the columns of the training schema, in
    the schema's order, and each numeric cell holds the value submitted for
    it: writing the four indicator columns overwrites none of the seven
    readings. *)
Theorem feature_row_carries_the_submission (X_columns : list string)
    (selected_crop : string) (i : PredictionInput) (row : list (string * Q)) :
  select_columns X_columns (input_data selected_crop i) = Ok row ->
  map fst row = X_columns /\
  (forall v, In ("Temperature_C", v) row -> v = Temperature_C i) /\
  (forall v, In ("Rainfall_mm", v) row -> v = Rainfall_mm i) /\
  (forall v, In ("Soil_pH", v) row -> v = Soil_pH i) /\
  (forall v, In ("Soil_Moisture", v) row -> v = Soil_Moisture i) /\
  (forall v, In ("Fertilizer_Usage_kg", v) row -> v = Fertilizer_Usage_kg i) /\
  (forall v, In ("Pesticide_Usage_kg", v) row -> v = Pesticide_Usage_kg i) /\
  (forall v, In ("Sustainability_Score", v) row -> v = Sustainability_Score i).
Proof.
  intros Hrow. split; [now apply select_columns_fst with (input_data selected_crop i)|].
  pose proof (select_columns_In _ _ _ Hrow) as Hin.
  destruct (input_data_numeric selected_crop i) as (H1 & H2 & H3 & H4 & H5 & H6 & H7).
  repeat split; intros v Hv; apply Hin in Hv as [_ Hv]; congruence.
Qed.

Lemma feature_row_carries_the_submission_witness :
  exists row,
    select_columns sample_schema (input_data "Corn" cool_alkaline_dry) = Ok row /\
    map fst row = sample_schema.
Proof.
  destruct (select_columns sample_schema (input_data "Corn" cool_alkaline_dry))
    as [row|e] eqn:E; [|vm_compute in E; discriminate E].
  exists row. split; [reflexivity|].
  apply (feature_row_carries_the_submission sample_schema "Corn" cool_alkaline_dry row E).
Defined.

(** The sections of a page are decided by the crop, the temperature, the
    soil pH and the rainfall alone: soil moisture, fertilizer, pesticide and
    sustainability score reach the model but no section, so two submissions
    that differ only there show the same sections, whatever is predicted. *)
Theorem sections_read_three_sliders_only (X_columns : list string)
    (predict1 predict2 : list (string * Q) -> Q) (y_mean1 y_mean2 : Q)
    (crop : string) (i1 i2 : PredictionInput) (page1 page2 : FarmerPage) :
  Temperature_C i1 = Temperature_C i2 ->
  Soil_pH i1 = Soil_pH i2 ->
  Rainfall_mm i1 = Rainfall_mm i2 ->
  farmer_submit X_columns predict1 y_mean1 crop i1 = Ok page1 ->
  farmer_submit X_columns predict2 y_mean2 crop i2 = Ok page2 ->
  recommendations page1 = recommendations page2.
Proof.
  intros Ht Hp Hr H1 H2.
  apply farmer_submit_Ok in H1 as (info1 & row1 & Hinfo1 & _ & _ & _ & ->).
  apply farmer_submit_Ok in H2 as (info2 & row2 & Hinfo2 & _ & _ & _ & ->).
  assert (info1 = info2) as -> by congruence.
  unfold recommendation_bundle. now rewrite Ht, Hp, Hr.
Qed.

Lemma sections_read_three_sliders_only_witness :
  exists page1 page2,
    farmer_submit sample_schema sample_model 5 "Rice" cool_alkaline_dry = Ok page1 /\
    farmer_submit sample_schema (fun _ => 0%Q) 5 "Rice" cool_alkaline_soaked = Ok page2 /\
    recommendations page1 = recommendations page2.
Proof.
  destruct (farmer_submit sample_schema sample_model 5 "Rice" cool_alkaline_dry)
    as [page1|e] eqn:E1; [|vm_compute in E1; discriminate E1].
  destruct (farmer_submit sample_schema (fun _ => 0%Q) 5 "Rice" cool_alkaline_soaked)
    as [page2|e] eqn:E2; [|vm_compute in E2; discriminate E2].
  exists page1, page2. split; [reflexivity|]. split; [reflexivity|].
  apply (sections_read_three_sliders_only sample_schema sample_model
           (fun _ => 0%Q) 5 5 "Rice" cool_alkaline_dry cool_alkaline_soaked
           page1 page2 eq_refl eq_refl eq_refl E1 E2).
Defined.

(** ** The feature columns *)

Lemma str_in_iff (s : string) (l : list string) : str_in s l = true <-> In s l.
Proof.
  unfold str_in. rewrite existsb_exists. split.
  - intros (x & Hx & Heq). apply String.eqb_eq in Heq. now subst.
  - intros H. exists s. split; [assumption | apply String.eqb_refl].
Qed.

Lemma feature_cols_In (columns : list string) (c : string) :
  In c (feature_cols columns) <->
  In c columns /\ c <> "Crop_Yield_ton" /\ c <> "Farm_ID".
Proof.
  unfold feature_cols. rewrite List.filter_In, negb_true_iff.
  rewrite <- not_true_iff_false, str_in_iff.
  destruct (str_in "Farm_ID" columns) eqn:Hid; simpl.
  - intuition congruence.
  - apply not_true_iff_false in Hid. rewrite str_in_iff in Hid.
    intuition congruence.
Qed.

(** The features of the farmer model are the dataset's columns without the
    target [Crop_Yield_ton] and without [Farm_ID], in the dataset's order.
    When every other column of the dataset is one of the eleven keys of
    [input_data], a submission for a supported crop always gets its page:
    the identifier column, if there is one, is never asked of the form. *)
Theorem feature_cols_drop_target_and_id (columns : list string) :
  (forall c, In c (feature_cols columns) <->
     In c columns /\ c <> "Crop_Yield_ton" /\ c <> "Farm_ID") /\
  sublist (feature_cols columns) columns /\
  ((forall c, In c columns ->
      In c input_columns \/ c = "Crop_Yield_ton" \/ c = "Farm_ID") ->
   forall predict y_mean crop i,
     supported crop ->
     exists page, farmer_submit (feature_cols columns) predict y_mean crop i = Ok page).
Proof.
  split; [apply feature_cols_In|]. split.
  - unfold feature_cols. generalize (fun col =>
      negb (str_in col (["Crop_Yield_ton"] ++
              (if str_in "Farm_ID" columns then ["Farm_ID"] else [])))).
    intros keep. induction columns as [|c columns IH]; simpl.
    + constructor.
    + destruct (keep c); now constructor.
  - intros Hcols predict y_mean crop i Hs.
    destruct (farmer_submit_total (feature_cols columns) predict y_mean crop i Hs)
      as (info & row & _ & _ & Hpage).
    + intros c Hc. apply feature_cols_In in Hc as (Hc & Ht & Hid).
      destruct (Hcols c Hc) as [H | [H | H]]; [assumption | contradiction..].
    + eauto.
Qed.

Lemma feature_cols_drop_target_and_id_witness :
  exists page,
    farmer_submit (feature_cols ("Farm_ID" :: sample_schema ++ ["Crop_Yield_ton"]))
      sample_model 5 "Soybean" cool_alkaline_dry = Ok page.
Proof.
  apply (proj2 (proj2 (feature_cols_drop_target_and_id
                         ("Farm_ID" :: sample_schema ++ ["Crop_Yield_ton"])))).
  - intros c Hc. simpl in Hc. unfold input_columns. simpl.
    intuition congruence.
  - right. right. right. reflexivity.
Defined.

(** * Further properties of the market path *)

(** ** Dicts *)

Section DictFacts.

Context {V : Type}.

Implicit Types (d w : dict V) (k c : string) (v : V).

Lemma get_set d k v c :
  get (PyDict.set d k v) c = if String.eqb c k then Some v else get d c.
Proof.
  induction d as [|[k' v'] d IH]; simpl.
  - reflexivity.
  - destruct (String.eqb_spec k k') as [-> | Hkk']; simpl.
    + now destruct (String.eqb_spec c k').
    + rewrite IH. destruct (String.eqb_spec c k') as [-> | Hck']; [|reflexivity].
      destruct (String.eqb_spec k' k); [congruence | reflexivity].
Qed.

Lemma keys_set d k v :
  keys (PyDict.set d k v) = if PyDict.has_key d k then keys d else keys d ++ [k].
Proof.
  unfold PyDict.has_key. induction d as [|[k' v'] d IH]; simpl.
  - reflexivity.
  - destruct (String.eqb_spec k k') as [-> | Hkk']; simpl; [reflexivity|].
    unfold keys in *. rewrite IH. now destruct (get d k).
Qed.

Lemma has_key_iff d c : PyDict.has_key d c = true <-> In c (keys d).
Proof.
  unfold PyDict.has_key. pose proof (get_None_iff d c) as H.
  destruct (get d c); split; try congruence; try tauto.
  intros _. destruct (in_dec string_dec c (keys d)) as [Hin | Hout]; [assumption|].
  apply H in Hout. discriminate.
Qed.

Lemma NoDup_keys_set d k v : List.NoDup (keys d) -> List.NoDup (keys (PyDict.set d k v)).
Proof.
  intros Hd. rewrite keys_set. destruct (PyDict.has_key d k) eqn:Hk; [assumption|].
  apply NoDup_ListNoDup. apply NoDup_ListNoDup in Hd.
  apply NoDup_app. split; [assumption|]. split.
  - intros x Hx Hx'. apply list_elem_of_In in Hx. apply list_elem_of_In in Hx'.
    destruct Hx' as [<- | []]. apply has_key_iff in Hx. congruence.
  - apply NoDup_singleton.
Qed.

Lemma NoDup_keys_merge d w : List.NoDup (keys d) -> List.NoDup (keys (PyDict.merge d w)).
Proof.
  unfold PyDict.merge. revert d. induction w as [|[k v] w IH]; simpl; intros d Hd.
  - assumption.
  - apply IH. now apply NoDup_keys_set.
Qed.

(** A key is in the merge exactly when it is in one of the two dicts. *)
Lemma keys_merge d w c :
  In c (keys (PyDict.merge d w)) <-> In c (keys d) \/ In c (keys w).
Proof.
  unfold PyDict.merge. revert d. induction w as [|[k v] w IH]; simpl; intros d.
  - tauto.
  - rewrite IH, keys_set. destruct (PyDict.has_key d k) eqn:Hk.
    + apply has_key_iff in Hk. intuition congruence.
    + rewrite in_app_iff. simpl. tauto.
Qed.

(** A value of the merge comes from one of the two dicts. *)
Lemma get_merge_Some d w c v :
  get (PyDict.merge d w) c = Some v -> get d c = Some v \/ In (c, v) w.
Proof.
  unfold PyDict.merge. revert d. induction w as [|[k' v'] w IH]; simpl; intros d.
  - tauto.
  - intros H. apply IH in H as [H | H]; [|tauto].
    rewrite get_set in H. destruct (String.eqb_spec c k') as [-> | _].
    + injection H as ->. right. now left.
    + now left.
Qed.

Lemma get_merge_outside d w c :
  ~ In c (keys w) -> get (PyDict.merge d w) c = get d c.
Proof.
  unfold PyDict.merge. revert d. induction w as [|[k' v'] w IH]; simpl; intros d Hout.
  - reflexivity.
  - rewrite IH by tauto. rewrite get_set.
    destruct (String.eqb_spec c k'); [exfalso; apply Hout; now left | reflexivity].
Qed.

(** When the written items have distinct keys, the later dict wins. *)
Lemma get_merge_inside d w c v :
  List.NoDup (keys w) -> In (c, v) w -> get (PyDict.merge d w) c = Some v.
Proof.
  unfold PyDict.merge. revert d. induction w as [|[k' v'] w IH]; simpl; intros d Hnd Hin.
  - contradiction.
  - inversion Hnd as [|? ? Hout Hnd']; subst. destruct Hin as [E | Hin].
    + injection E as -> ->. fold (PyDict.merge (PyDict.set d c v) w).
      rewrite get_merge_outside by assumption.
      rewrite get_set. now rewrite String.eqb_refl.
    + now apply IH.
Qed.

End DictFacts.

(** ** The loops of the market form *)

Lemma In_enumerate_from {A} (xs : list A) (start i : nat) (x : A) :
  In (i, x) (combine (seq start (length xs)) xs) <->
  (start <= i)%nat /\ nth_error xs (i - start) = Some x.
Proof.
  revert start. induction xs as [|y xs IH]; simpl; intros start.
  - split; [tauto|]. intros [_ H]. destruct (i - start)%nat; discriminate.
  - rewrite IH. split.
    + intros [E | [Hle Hnth]].
      * injection E as <- <-. rewrite Nat.sub_diag. split; [lia | reflexivity].
      * split; [lia|]. replace (i - start)%nat with (S (i - S start)) by lia.
        exact Hnth.
    + intros [Hle Hnth]. destruct (i - start)%nat as [|n] eqn:En.
      * left. injection Hnth as <-. f_equal. lia.
      * right. split; [lia|]. replace (i - S start)%nat with n by lia. exact Hnth.
Qed.

Lemma In_enumerate {A} (xs : list A) (i : nat) (x : A) :
  In (i, x) (PyDict.enumerate xs) <-> nth_error xs i = Some x.
Proof.
  unfold PyDict.enumerate. rewrite In_enumerate_from, Nat.sub_0_r.
  split; [tauto | split; [lia | assumption]].
Qed.

Lemma map_snd_enumerate {A} (xs : list A) : map snd (PyDict.enumerate xs) = xs.
Proof.
  unfold PyDict.enumerate. generalize 0%nat.
  induction xs as [|x xs IH]; simpl; intros start; [reflexivity|].
  now rewrite IH.
Qed.

Section Fill.

Variables (prefix : string) (member : string -> bool) (entered : string -> nat -> Q).

Lemma fill_writes (X_columns : list string) :
  fill prefix member entered X_columns
  = PyDict.merge [] (writes prefix member entered X_columns).
Proof.
  unfold fill, writes, PyDict.merge. generalize (@nil (string * Q)).
  induction (PyDict.enumerate X_columns) as [|cell l IH]; simpl; intros d.
  - reflexivity.
  - destruct (member (snd cell)); simpl; apply IH.
Qed.

Lemma keys_writes (X_columns : list string) :
  keys (writes prefix member entered X_columns) = List.filter member X_columns.
Proof.
  unfold writes, keys. rewrite map_map. simpl.
  rewrite <- (map_snd_enumerate X_columns) at 2.
  induction (PyDict.enumerate X_columns) as [|cell l IH]; simpl; [reflexivity|].
  destruct (member (snd cell)); simpl; now rewrite IH.
Qed.

Lemma In_writes (X_columns : list string) (c : string) (v : Q) :
  In (c, v) (writes prefix member entered X_columns) <->
  exists i, nth_error X_columns i = Some c /\ member c = true /\ v = entered prefix i.
Proof.
  unfold writes. rewrite in_map_iff. split.
  - intros ([i c'] & E & Hin). simpl in E. injection E as -> <-.
    apply List.filter_In in Hin as [Hin Hm]. apply In_enumerate in Hin. eauto.
  - intros (i & Hnth & Hm & ->). exists (i, c). split; [reflexivity|].
    apply List.filter_In. split; [now apply In_enumerate | assumption].
Qed.

(** The keys of a group are the columns that pass its test. *)
Lemma keys_fill (X_columns : list string) (c : string) :
  In c (keys (fill prefix member entered X_columns)) <->
  In c X_columns /\ member c = true.
Proof.
  rewrite fill_writes, keys_merge, keys_writes, List.filter_In. simpl. tauto.
Qed.

Lemma NoDup_keys_fill (X_columns : list string) :
  List.NoDup (keys (fill prefix member entered X_columns)).
Proof. rewrite fill_writes. apply NoDup_keys_merge. constructor. Qed.

(** Every value of a group is the value of one of the column's sliders. *)
Lemma get_fill_Some (X_columns : list string) (c : string) (v : Q) :
  get (fill prefix member entered X_columns) c = Some v ->
  exists i, nth_error X_columns i = Some c /\ member c = true /\ v = entered prefix i.
Proof.
  rewrite fill_writes. intros H. apply get_merge_Some in H as [H | H].
  - discriminate.
  - now apply In_writes.
Qed.

(** With distinct column names, it is the slider at the column's index. *)
Lemma get_fill_at (X_columns : list string) (i : nat) (c : string) :
  List.NoDup X_columns -> nth_error X_columns i = Some c -> member c = true ->
  get (fill prefix member entered X_columns) c = Some (entered prefix i).
Proof.
  intros Hnd Hnth Hm. rewrite fill_writes. apply get_merge_inside.
  - rewrite keys_writes. now apply List.NoDup_filter.
  - apply In_writes. eauto.
Qed.

Lemma get_fill_None (X_columns : list string) (c : string) :
  member c = false -> get (fill prefix member entered X_columns) c = None.
Proof.
  intros Hm. apply get_None_iff. rewrite keys_fill. intros [_ H]. congruence.
Qed.

End Fill.

Lemma In_dict_get {V} (d : dict V) (c : string) (v : V) :
  List.NoDup (keys d) -> In (c, v) d -> get d c = Some v.
Proof.
  induction d as [|[k' v'] d IH]; simpl; [tauto|].
  intros Hnd [E | Hin].
  - injection E as -> ->. now rewrite String.eqb_refl.
  - inversion Hnd as [|? ? Hout Hnd']; subst.
    destruct (String.eqb_spec c k') as [-> | _].
    + exfalso. apply Hout. unfold keys. apply in_map_iff. now exists (k', v).
    + now apply IH.
Qed.

Lemma get_merge {V} (d w : dict V) (c : string) :
  List.NoDup (keys w) ->
  get (PyDict.merge d w) c
  = match get w c with
    | Some v => Some v
    | None => get d c
    end.
Proof.
  intros Hnd. destruct (get w c) as [v|] eqn:Hw.
  - apply get_merge_inside; [assumption | now apply get_Some_In].
  - apply get_merge_outside. now apply get_None_iff.
Qed.

Lemma align_map (columns : list string) (d : dict Q) (cell : string -> Q) :
  (forall c, In c columns -> get d c = Some (cell c)) ->
  align columns d = Ok (map (fun c => (c, cell c)) columns).
Proof.
  induction columns as [|c columns IH]; simpl; intros Hall.
  - reflexivity.
  - unfold subscript. rewrite (Hall c (or_introl eq_refl)). simpl.
    rewrite IH by (intros c' Hc'; apply Hall; now right). reflexivity.
Qed.

(** ** The four groups of the market form *)

Arguments matches : simpl never.
Arguments fill : simpl never.
Arguments PyDict.merge : simpl never.

Section MarketForm.

Variables (entered : string -> nat -> Q) (X_columns : list string).

#[local] Abbreviation form := (market_form entered X_columns).

#[local] Abbreviation grouped :=
  (PyDict.merge (PyDict.merge (price_data form) (market_data form))
     (economic_data form)).

Lemma has_key_grouped (c : string) :
  In c X_columns ->
  PyDict.has_key grouped c
  = matches price_terms c || matches market_terms c || matches economic_terms c.
Proof.
  intros Hc. apply eq_true_iff_eq.
  rewrite has_key_iff, !keys_merge, !orb_true_iff. simpl.
  rewrite !keys_fill. tauto.
Qed.

Lemma other_data_fill :
  other_data form
  = fill "other" (fun col => negb (PyDict.has_key grouped col)) entered X_columns.
Proof. reflexivity. Qed.

Lemma keys_other_data (c : string) :
  In c (keys (other_data form)) <->
  In c X_columns /\
  matches price_terms c = false /\
  matches market_terms c = false /\
  matches economic_terms c = false.
Proof.
  simpl. rewrite keys_fill. split.
  - intros [Hc Hm]. rewrite has_key_grouped in Hm by assumption.
    apply negb_true_iff in Hm. rewrite !orb_false_iff in Hm. tauto.
  - intros (Hc & Hp & Hm & He). split; [assumption|].
    rewrite has_key_grouped by assumption. now rewrite Hp, Hm, He.
Qed.

Lemma keys_market_input_data (c : string) :
  In c X_columns -> In c (keys (market_input_data form)).
Proof.
  intros Hc. unfold market_input_data. rewrite keys_merge, <- has_key_iff.
  rewrite has_key_grouped by assumption. rewrite keys_other_data.
  destruct (matches price_terms c), (matches market_terms c),
    (matches economic_terms c); simpl; tauto.
Qed.

Lemma get_market_input_data (c : string) :
  get (market_input_data form) c
  = match get (other_data form) c with
    | Some v => Some v
    | None =>
        match get (economic_data form) c with
        | Some v => Some v
        | None =>
            match get (market_data form) c with
            | Some v => Some v
            | None => get (price_data form) c
            end
        end
    end.
Proof.
  unfold market_input_data. rewrite !get_merge; try apply NoDup_keys_fill.
  reflexivity.
Qed.

End MarketForm.

(** Every column of the training schema lands in one of the four groups of
    the form, so the merged input always covers the schema: a market
    submission never raises, and the model is given the schema's columns in
    the schema's order. *)
Theorem market_submit_never_raises (X_columns : list string) (X_mean : string -> Q)
    (predict : list (string * Q) -> Q) (y_mean : Q)
    (entered : string -> nat -> Q) :
  let f := market_form entered X_columns in
  exists row,
    align X_columns (market_input_data f) = Ok row /\
    map fst row = X_columns /\
    market_submit X_columns X_mean predict y_mean entered
    = Ok (market_analysis X_mean y_mean (predict row)
            (price_data f) (market_data f) (economic_data f)).
Proof.
  intros f.
  set (cell := fun c => match get (market_input_data f) c with
                        | Some v => v
                        | None => 0%Q
                        end).
  assert (Hrow : align X_columns (market_input_data f)
                 = Ok (map (fun c => (c, cell c)) X_columns)).
  { apply align_map. intros c Hc. unfold cell.
    pose proof (keys_market_input_data entered X_columns c Hc) as Hkey.
    fold f in Hkey. destruct (get (market_input_data f) c) eqn:Hget; [reflexivity|].
    apply get_None_iff in Hget. contradiction. }
  exists (map (fun c => (c, cell c)) X_columns).
  split; [assumption|]. split.
  - rewrite map_map. simpl. apply map_id.
  - unfold market_submit. fold f. now rewrite Hrow.
Qed.

(** The three named groups hold the columns whose lower-cased name contains
    one of the group's terms, and may overlap; the fourth holds exactly the
    columns that no term matches, so it is disjoint from the three. *)
Theorem market_groups_partition (entered : string -> nat -> Q)
    (X_columns : list string) (c : string) :
  let f := market_form entered X_columns in
  (In c (keys (price_data f)) <-> In c X_columns /\ matches price_terms c = true) /\
  (In c (keys (market_data f)) <-> In c X_columns /\ matches market_terms c = true) /\
  (In c (keys (economic_data f)) <->
     In c X_columns /\ matches economic_terms c = true) /\
  (In c (keys (other_data f)) <->
     In c X_columns /\
     ~ In c (keys (price_data f)) /\
     ~ In c (keys (market_data f)) /\
     ~ In c (keys (economic_data f))).
Proof.
  intros f. subst f. rewrite keys_other_data. simpl. rewrite !keys_fill.
  destruct (matches price_terms c), (matches market_terms c),
    (matches economic_terms c); intuition congruence.
Qed.

(** With distinct column names, the cell the model reads for the column at
    index [i] is the slider of the last group that shows the column
    (economic before market before price, else other), while each risk
    analysis reads the slider of its own group: for a column shown in two
    groups the model and the earlier group's risk test can read different
    values. *)
Theorem model_reads_the_last_group (X_columns : list string)
    (entered : string -> nat -> Q) (row : list (string * Q)) :
  List.NoDup X_columns ->
  align X_columns (market_input_data (market_form entered X_columns)) = Ok row ->
  forall i c,
    nth_error X_columns i = Some c ->
    let f := market_form entered X_columns in
    nth_error row i = Some (c, entered (deciding_group c) i) /\
    (matches price_terms c = true ->
       get (price_data f) c = Some (entered "price" i)) /\
    (matches market_terms c = true ->
       get (market_data f) c = Some (entered "market" i)) /\
    (matches economic_terms c = true ->
       get (economic_data f) c = Some (entered "economic" i)).
Proof.
  intros Hnd Hrow i c Hnth f.
  assert (Hc : In c X_columns) by (eapply nth_error_In; eassumption).
  assert (Hp : get (price_data f) c
               = if matches price_terms c then Some (entered "price" i) else None).
  { destruct (matches price_terms c) eqn:E;
      [now apply get_fill_at | now apply get_fill_None]. }
  assert (Hm : get (market_data f) c
               = if matches market_terms c then Some (entered "market" i) else None).
  { destruct (matches market_terms c) eqn:E;
      [now apply get_fill_at | now apply get_fill_None]. }
  assert (He : get (economic_data f) c
               = if matches economic_terms c then Some (entered "economic" i)
                 else None).
  { destruct (matches economic_terms c) eqn:E;
      [now apply get_fill_at | now apply get_fill_None]. }
  assert (Ho : get (other_data f) c
               = if matches price_terms c || matches market_terms c
                    || matches economic_terms c
                 then None else Some (entered "other" i)).
  { subst f. rewrite other_data_fill.
    destruct (matches price_terms c || matches market_terms c
              || matches economic_terms c) eqn:Hany.
    - apply get_fill_None. rewrite has_key_grouped by assumption.
      now rewrite Hany.
    - apply get_fill_at; try assumption.
      rewrite has_key_grouped by assumption. now rewrite Hany. }
  split.
  2:{ rewrite Hp, Hm, He. repeat split; now intros ->. }
  assert (Hcell : get (market_input_data f) c = Some (entered (deciding_group c) i)).
  { subst f. rewrite get_market_input_data, Ho, He, Hm, Hp. unfold deciding_group.
    destruct (matches price_terms c), (matches market_terms c),
      (matches economic_terms c); reflexivity. }
  set (cell := fun c' => match get (market_input_data f) c' with
                         | Some v => v
                         | None => 0%Q
                         end).
  assert (Hmap : align X_columns (market_input_data f)
                 = Ok (map (fun c' => (c', cell c')) X_columns)).
  { apply align_map. intros c' Hc'. unfold cell.
    pose proof (keys_market_input_data entered X_columns c' Hc') as Hkey.
    fold f in Hkey. destruct (get (market_input_data f) c') eqn:Hget; [reflexivity|].
    apply get_None_iff in Hget. contradiction. }
  subst f. rewrite Hmap in Hrow. injection Hrow as <-.
  rewrite nth_error_map, Hnth. simpl. unfold cell. now rewrite Hcell.
Qed.

Lemma model_reads_the_last_group_witness :
  exists row,
    align sample_market_schema
      (market_input_data (market_form one_value_per_group sample_market_schema))
    = Ok row /\
    nth_error row 0 = Some ("Market_Price", 2%Q) /\
    get (price_data (market_form one_value_per_group sample_market_schema))
      "Market_Price" = Some 1%Q.
Proof.
  destruct (align sample_market_schema
              (market_input_data (market_form one_value_per_group sample_market_schema)))
    as [row|e] eqn:E; [|vm_compute in E; discriminate E].
  exists row. split; [reflexivity|].
  assert (Hnd : List.NoDup sample_market_schema).
  { apply NoDup_ListNoDup, (bool_decide_unpack _). exact I. }
  destruct (model_reads_the_last_group sample_market_schema one_value_per_group
              row Hnd E 0%nat "Market_Price" eq_refl) as (Hcell & Hprice & _).
  split; [exact Hcell | apply Hprice; reflexivity].
Defined.

(** ** The untouched market form *)

Lemma risk_detected_none_below (X_mean : string -> Q) (data : dict Q) :
  (forall c v, In (c, v) data -> (X_mean c <= v)%Q) ->
  risk_detected X_mean data = false.
Proof.
  intros Hall. apply not_true_iff_false. rewrite risk_detected_iff.
  assert (Hnone : below_mean X_mean data = []).
  { unfold below_mean. induction data as [|[c v] data IH]; simpl; [reflexivity|].
    destruct (Qlt_le_dec v (X_mean c)) as [Hlt | _].
    - exfalso. apply (Qlt_not_le _ _ Hlt). apply Hall. now left.
    - apply IH. intros c' v' H'. apply Hall. now right. }
  rewrite Hnone. simpl. lia.
Qed.

Lemma risk_detected_all_below (X_mean : string -> Q) (data : dict Q) :
  data <> [] ->
  (forall c v, In (c, v) data -> (v < X_mean c)%Q) ->
  risk_detected X_mean data = true.
Proof.
  intros Hne Hall. rewrite risk_detected_iff.
  assert (Hevery : below_mean X_mean data = data).
  { unfold below_mean. clear Hne. induction data as [|[c v] data IH]; simpl; [reflexivity|].
    destruct (Qlt_le_dec v (X_mean c)) as [_ | Hle].
    - f_equal. apply IH. intros c' v' H'. apply Hall. now right.
    - exfalso. apply (Qlt_not_le v (X_mean c)); [apply Hall; now left | assumption]. }
  rewrite Hevery. destruct data; [contradiction | simpl; lia].
Qed.

Lemma fill_at_means (X_mean : string -> Q) (X_columns : list string)
    (prefix : string) (member : string -> bool) (c : string) (v : Q) :
  get (fill prefix member (at_means X_mean X_columns) X_columns) c = Some v ->
  v = X_mean c.
Proof.
  intros H. apply get_fill_Some in H as (i & Hnth & _ & ->).
  unfold at_means. now rewrite (nth_error_nth _ _ _ Hnth).
Qed.

(** Submitting the market form untouched, every slider at the mean of its
    column, raises none of the three risk alerts, and the model is asked
    about the row of column means. *)
Theorem untouched_market_form_raises_no_alert (X_columns : list string)
    (X_mean : string -> Q) (predict : list (string * Q) -> Q) (y_mean : Q) :
  exists page,
    market_submit X_columns X_mean predict y_mean (at_means X_mean X_columns)
    = Ok page /\
    alerts page = [] /\
    predicted_outcome page = predict (map (fun c => (c, X_mean c)) X_columns).
Proof.
  set (entered := at_means X_mean X_columns).
  set (f := market_form entered X_columns).
  assert (Hgroup : forall prefix member,
             risk_detected X_mean (fill prefix member entered X_columns) = false).
  { intros prefix member. apply risk_detected_none_below. intros c v Hin.
    apply In_dict_get in Hin; [|apply NoDup_keys_fill].
    apply fill_at_means in Hin. subst v. apply Qle_refl. }
  assert (Hrow : align X_columns (market_input_data f)
                 = Ok (map (fun c => (c, X_mean c)) X_columns)).
  { apply align_map. intros c Hc.
    pose proof (keys_market_input_data entered X_columns c Hc) as Hkey.
    fold f in Hkey.
    destruct (get (market_input_data f) c) as [v|] eqn:Hget;
      [|apply get_None_iff in Hget; contradiction].
    f_equal. subst f. rewrite get_market_input_data in Hget.
    rewrite other_data_fill in Hget.
    repeat match type of Hget with
           | match ?g with _ => _ end = _ =>
               let E := fresh "E" in
               destruct g eqn:E;
               [injection Hget as <-; now apply fill_at_means in E|]
           end.
    now apply fill_at_means in Hget. }
  eexists. split; [|split].
  - unfold market_submit. fold entered f. rewrite Hrow. reflexivity.
  - simpl. unfold risk_assessment. subst f. cbn [price_data market_data economic_data market_form].
    now rewrite !Hgroup.
  - reflexivity.
Qed.

(** ** The sliders of the market form *)

(** For a column with a non-negative standard deviation, the slider's
    minimum is never negative and its initial value, the column mean, never
    exceeds its maximum; the slider opens inside its bounds exactly when the
    column mean is not negative, because the minimum is clamped at 0 and the
    mean is not.  A constant column with a non-negative mean gets a slider
    whose minimum, maximum and value coincide and whose step is zero. *)
Theorem market_slider_bounds (mean_val std_val : Q) :
  (0 <= std_val)%Q ->
  let s := market_slider mean_val std_val in
  (0 <= min_value s)%Q /\
  (value s <= max_value s)%Q /\
  (opens_in_bounds s <-> (0 <= mean_val)%Q) /\
  (std_val == 0 -> (0 <= mean_val)%Q ->
     min_value s == max_value s /\
     exists q, step s = Some q /\ q == 0).
Proof.
  intros Hstd s. subst s. unfold opens_in_bounds, market_slider, PyDict.max. simpl.
  destruct (gt (mean_val - 3 * std_val) 0) eqn:Hclamp;
    [apply gt_iff in Hclamp | apply gt_false_iff in Hclamp];
    (split; [lra|]); (split; [lra|]); (split; [split; [lra | split; lra]|]);
    intros E Hmean; (split; [lra|]); eexists; (split; [reflexivity|]);
    match goal with
    | |- (?x / 100 == 0)%Q =>
        assert (Hx : x == 0) by lra; rewrite Hx; reflexivity
    end.
Qed.

Lemma market_slider_bounds_witness :
  opens_in_bounds (market_slider 40 5) /\ ~ opens_in_bounds (market_slider (-2) 1).
Proof.
  split.
  - apply (market_slider_bounds 40 5); [discriminate | discriminate].
  - intros H. apply (market_slider_bounds (-2) 1) in H; [|discriminate].
    now apply H.
Defined.

(** ** Unanimous groups *)

(** The alerts come in the order price, market, economic, each at most
    once.  A non-empty group whose values are all strictly below their
    column means raises its alert; a group with no value below its column
    mean, in particular one whose sliders were all left at or moved above
    the mean, raises none. *)
Theorem unanimous_group_decides_its_alert (X_mean : string -> Q)
    (price_data market_data economic_data : dict Q) :
  let alerts := risk_assessment X_mean price_data market_data economic_data in
  let decided (alert : RiskAlert) (data : dict Q) : Prop :=
    (data <> [] -> (forall c v, In (c, v) data -> (v < X_mean c)%Q) ->
       In alert alerts) /\
    ((forall c v, In (c, v) data -> (X_mean c <= v)%Q) -> ~ In alert alerts) in
  sublist alerts [HighPriceRisk; MarketRiskAlert; EconomicRiskFactors] /\
  decided HighPriceRisk price_data /\
  decided MarketRiskAlert market_data /\
  decided EconomicRiskFactors economic_data.
Proof.
  intros alerts decided.
  assert (Hrule : forall alert data,
             (In alert alerts <-> risk_detected X_mean data = true) ->
             decided alert data).
  { intros alert data Hiff. unfold decided. rewrite Hiff. split.
    - apply risk_detected_all_below.
    - intros Hnone. rewrite (risk_detected_none_below _ _ Hnone). discriminate. }
  split.
  - subst alerts. unfold risk_assessment.
    destruct (risk_detected X_mean price_data), (risk_detected X_mean market_data),
      (risk_detected X_mean economic_data); simpl; sublist_of_order.
  - subst alerts.
    split; [|split]; apply Hrule; rewrite In_risk_assessment; intuition congruence.
Qed.

Lemma unanimous_group_decides_its_alert_witness :
  In MarketRiskAlert (risk_assessment flat_means half_price weak_market no_economic).
Proof.
  destruct (unanimous_group_decides_its_alert flat_means half_price weak_market
              no_economic) as (_ & _ & (Hall & _) & _).
  apply Hall.
  - discriminate.
  - intros c v [E | [E | []]]; injection E as <- <-; reflexivity.
Defined.

(** ** The substring test

    [PyStr.contains] is the substring relation of Python's [in]. *)

Lemma append_String (a : Ascii.ascii) (t after : string) :
  String a t +:+ after = String a (t +:+ after).
Proof. reflexivity. Qed.

Lemma append_Empty (after : string) : EmptyString +:+ after = after.
Proof. reflexivity. Qed.

Lemma prefix_iff (t s : string) :
  String.prefix t s = true <-> exists after, s = t +:+ after.
Proof.
  revert s. induction t as [|a t IH]; intros s.
  - destruct s; simpl; split; try reflexivity; intros _; eexists;
      rewrite append_Empty; reflexivity.
  - destruct s as [|b s]; simpl.
    + split; [discriminate|]. intros [after H]. rewrite append_String in H.
      discriminate H.
    + destruct (Ascii.ascii_dec a b) as [<- | Hne].
      * rewrite IH. split; intros [after H]; exists after;
          rewrite append_String in *; congruence.
      * split; [discriminate|]. intros [after H]. rewrite append_String in H.
        congruence.
Qed.

Lemma contains_iff (t s : string) :
  PyStr.contains t s = true <-> exists before after, s = before +:+ t +:+ after.
Proof.
  induction s as [|b s IH].
  - change (PyStr.contains t EmptyString)
      with (String.prefix t EmptyString || false).
    rewrite orb_false_r, prefix_iff. split.
    + intros [after H]. exists EmptyString, after. now rewrite append_Empty.
    + intros (before & after & H). destruct before as [|b' before].
      * exists after. now rewrite append_Empty in H.
      * rewrite append_String in H. discriminate H.
  - change (PyStr.contains t (String b s))
      with (String.prefix t (String b s) || PyStr.contains t s).
    rewrite orb_true_iff, IH, prefix_iff. split.
    + intros [[after H] | (before & after & H)].
      * exists EmptyString, after. now rewrite append_Empty.
      * exists (String b before), after. rewrite append_String. now rewrite H.
    + intros (before & after & H). destruct before as [|b' before].
      * left. exists after. now rewrite append_Empty in H.
      * right. exists before, after. rewrite append_String in H. congruence.
Qed.
